(** * The WASL dataset-to-clip-to-pose pipeline

    A shallow embedding of [scripts/wasl_processor.py] (class
    [WASLProcessor]) and of the download loop of [scripts/get_WLASL.py].

    - JSON data is kept dynamically typed, as Python has it ([pyval]).
    - Exceptions are a sum type ([result]); code that touches the
      processor object, the file system or an external tool runs in a
      state-and-exception monad over [World].
    - The external collaborators (yt-dlp, moviepy, the OpenPose binary,
      urllib) are oracles stored in the world: their outcome may depend on
      everything that happened before (the event trace).               *)

From Stdlib Require Import Ascii QArith Lia.
From stdpp Require Import base option list strings pretty gmap.
Close Scope Q_scope.
Open Scope string_scope.

(** ** Python values, as [json.load] produces them *)

(** Numbers ([int] and finite [float]) are kept as their exact rational
    value; the literals [NaN] and [Infinity] are outside the model.
    JSON objects have string keys and keep their order. *)
#[warnings="-register-all"]
Inductive pyval : Type :=
| PNone
| PBool (b : bool)
| PNum (q : Q)
| PStr (s : string)
| PList (l : list pyval)
| PDict (d : list (string * pyval)).

(** ** Exceptions *)

Inductive exn : Type :=
| FileNotFoundError (msg : string)
| KeyError (key : string)
| TypeError
| AttributeError
| JSONDecodeError
| OSError
| UnboundLocalError (var : string)
| CalledProcessError
| ExternalError (tag : string)   (* any other [Exception] of a library *)
| KeyboardInterrupt.             (* a [BaseException], not an [Exception] *)

Inductive result (A : Type) : Type :=
| Ok (a : A)
| Raise (e : exn).
Arguments Ok {A} a.
Arguments Raise {A} e.

Notation "'let?' x ':=' e 'in' k" :=
  (match e with Ok x => k | Raise ex => Raise ex end)
  (at level 10, x name, e at level 100, k at level 200).

(** [except Exception] catches everything but the [BaseException]s. *)
Definition is_Exception (e : exn) : bool :=
  match e with KeyboardInterrupt => false | _ => true end.

(** ** Operators on values *)

Definition Qltb (x y : Q) : bool := negb (Qle_bool y x).

(** [bool(v)] *)
Definition truthy (v : pyval) : bool :=
  match v with
  | PNone => false
  | PBool b => b
  | PNum q => negb (Qeq_bool q 0)
  | PStr s => negb (String.eqb s "")
  | PList l => match l with [] => false | _ => true end
  | PDict d => match d with [] => false | _ => true end
  end.

(** [bool] is a subclass of [int]. *)
Definition as_num (v : pyval) : option Q :=
  match v with
  | PBool true => Some 1%Q
  | PBool false => Some 0%Q
  | PNum q => Some q
  | _ => None
  end.

Fixpoint alist_get {V : Type} (k : string) (d : list (string * V)) : option V :=
  match d with
  | [] => None
  | (k', v) :: r => if String.eqb k k' then Some v else alist_get k r
  end.

(** [a == b] *)
Fixpoint py_eqb (a b : pyval) {struct a} : bool :=
  match a, b with
  | PNone, PNone => true
  | PStr s, PStr t => String.eqb s t
  | PList l1, PList l2 =>
      (fix go (l1 l2 : list pyval) {struct l1} : bool :=
         match l1, l2 with
         | [], [] => true
         | x :: xs, y :: ys => py_eqb x y && go xs ys
         | _, _ => false
         end) l1 l2
  | PDict d1, PDict d2 =>
      Nat.eqb (length d1) (length d2) &&
      (fix go (d : list (string * pyval)) {struct d} : bool :=
         match d with
         | [] => true
         | (k, v) :: r =>
             match alist_get k d2 with
             | Some v' => py_eqb v v'
             | None => false
             end && go r
         end) d1
  | _, _ =>
      match as_num a, as_num b with
      | Some x, Some y => Qeq_bool x y
      | _, _ => false
      end
  end.

(** [a < b]; raises [TypeError] where Python has no ordering. Lists are
    compared at their first differing position. *)
Fixpoint py_lt (a b : pyval) {struct a} : result bool :=
  match a, b with
  | PStr s, PStr t => Ok (String.ltb s t)
  | PList l1, PList l2 =>
      (fix go (l1 l2 : list pyval) {struct l1} : result bool :=
         match l1, l2 with
         | [], [] => Ok false
         | [], _ :: _ => Ok true
         | _ :: _, [] => Ok false
         | x :: xs, y :: ys => if py_eqb x y then go xs ys else py_lt x y
         end) l1 l2
  | _, _ =>
      match as_num a, as_num b with
      | Some x, Some y => Ok (Qltb x y)
      | _, _ => Raise TypeError
      end
  end.

(** [entry.get(key, default)]: only a dict has the method. *)
Definition py_get (entry : pyval) (key : string) (default : pyval) : result pyval :=
  match entry with
  | PDict d => Ok (match alist_get key d with Some v => v | None => default end)
  | _ => Raise AttributeError
  end.

(** [entry[key]] for a string [key]. *)
Definition py_getitem (entry : pyval) (key : string) : result pyval :=
  match entry with
  | PDict d =>
      match alist_get key d with
      | Some v => Ok v
      | None => Raise (KeyError key)
      end
  | _ => Raise TypeError
  end.

Fixpoint chars (s : string) : list pyval :=
  match s with
  | EmptyString => []
  | String c r => PStr (String c EmptyString) :: chars r
  end.

(** [for x in v]: the elements of a list, the keys of a dict, the
    characters of a string. *)
Definition py_iter (v : pyval) : result (list pyval) :=
  match v with
  | PList l => Ok l
  | PDict d => Ok (map (fun kv => PStr (fst kv)) d)
  | PStr s => Ok (chars s)
  | _ => Raise TypeError
  end.

(** ** Metadata normalisation: the loop of [_process_WASL_structure] *)

Definition metadata_entry (video_id word start_time end_time : pyval) : pyval :=
  PDict [("video_id", video_id); ("word", word);
         ("start_time", start_time); ("end_time", end_time)].

(** One iteration: [None] for [continue] or a failed test, [Some] for the
    appended entry. [word and start_time < end_time] compares only when
    [word] is truthy. *)
Definition normalize_entry (entry : pyval) : result (option pyval) :=
  let? video_id := py_get entry "video_id" PNone in
  if negb (truthy video_id) then Ok None
  else
    let? word := py_get entry "word" (PStr "") in
    let? start_time := py_get entry "start_time" (PNum 0) in
    let? end_time := py_get entry "end_time" (PNum 0) in
    let? keep := (if truthy word then py_lt start_time end_time else Ok false) in
    if keep then Ok (Some (metadata_entry video_id word start_time end_time))
    else Ok None.

Fixpoint normalize_loop (entries : list pyval) (metadata : list pyval)
  : result (list pyval) :=
  match entries with
  | [] => Ok metadata
  | entry :: rest =>
      let? r := normalize_entry entry in
      normalize_loop rest
        (match r with Some m => metadata ++ [m] | None => metadata end)
  end.

Definition normalize (annotations : pyval) : result (list pyval) :=
  let? entries := py_iter annotations in
  normalize_loop entries [].

(** ** Python dicts built by the code *)

(** Keys are hashable values compared with [==]; an assignment to an
    existing key replaces the value in place, so the iteration order is the
    order of first insertion. *)
Definition hashable (v : pyval) : bool :=
  match v with
  | PList _ | PDict _ => false
  | _ => true
  end.

Fixpoint dict_set {V : Type} (k : pyval) (v : V) (d : list (pyval * V))
  : list (pyval * V) :=
  match d with
  | [] => [(k, v)]
  | (k', v') :: r =>
      if py_eqb k' k then (k', v) :: r else (k', v') :: dict_set k v r
  end.

Fixpoint dict_lookup {V : Type} (k : pyval) (d : list (pyval * V)) : option V :=
  match d with
  | [] => None
  | (k', v') :: r => if py_eqb k' k then Some v' else dict_lookup k r
  end.

(** [d[k] = v] *)
Definition py_setitem {V : Type} (k : pyval) (v : V) (d : list (pyval * V))
  : result (list (pyval * V)) :=
  if hashable k then Ok (dict_set k v d) else Raise TypeError.

Fixpoint substring_of (s t : string) : bool :=
  String.prefix s t ||
  match t with
  | EmptyString => false
  | String _ r => substring_of s r
  end.

(** [x in container] *)
Definition py_contains (container x : pyval) : result bool :=
  match container with
  | PDict d =>
      if hashable x then
        Ok (match x with
            | PStr k => match alist_get k d with Some _ => true | None => false end
            | _ => false
            end)
      else Raise TypeError
  | PList l => Ok (existsb (fun e => py_eqb e x) l)
  | PStr t =>
      match x with
      | PStr s => Ok (substring_of s t)
      | _ => Raise TypeError
      end
  | _ => Raise TypeError
  end.

(** ** The world: processor object, file system, external tools *)

Inductive file : Type :=
| FDir                 (* a directory *)
| FBlob                (* a regular file that is not a JSON document *)
| FJson (v : pyval).   (* a regular file holding the JSON text of [v] *)

Inductive level : Type := INFO | WARNING | ERROR.

Inductive event : Type :=
| EvRead (path : string)                  (* file opened for reading *)
| EvWrite (path : string)                 (* file opened for writing *)
| EvFetch (url : string)                  (* network fetch invoked *)
| EvVideoOpen (path : string)             (* VideoFileClip(path) *)
| EvVideoClose (path : string)            (* video.close() *)
| EvSubclip (path : string) (t0 t1 : pyval)
| EvEncode (out : string)                 (* clip.write_videofile(out) *)
| EvRun (cmd : list string)               (* subprocess.run(cmd) *)
| EvLog (lvl : level) (msg : string) (cause : option exn)
| EvPrint (msg : string).

(** What the code cannot decide itself. Every oracle sees the trace of
    the events so far. *)
Record External : Type := {
  (* [str(v)] inside an f-string, for [v] that is not a [str] *)
  py_str : pyval -> string;
  (* key coercion of [json.dump], for keys that are not a [str] *)
  json_key : pyval -> string;
  (* [ydl.download([url])]: files left on disk, exception if any *)
  ydl_download : list event -> string -> list string * option exn;
  (* [urllib.request.urlretrieve(url, out)]: whether [out] was created *)
  urlretrieve : list event -> string -> string -> bool * option exn;
  (* [VideoFileClip(path)] *)
  video_open : list event -> string -> option exn;
  (* [video.subclip(start, end)] *)
  video_subclip : list event -> string -> pyval -> pyval -> option exn;
  (* [clip.write_videofile(out, ...)] *)
  write_videofile : list event -> string -> option exn;
  (* [subprocess.run(cmd)]: the exit code and the files the process
     wrote, or the exception of a failed launch *)
  subprocess_run : list event -> list string -> result (Z * list (string * file));
}.

Record World : Type := {
  output_dir : string;           (* self.output_dir *)
  openpose_path : string;        (* self.openpose_path *)
  metadata_cache : pyval;        (* self.metadata_cache *)
  files : gmap string file;      (* the file system *)
  unwritable : gset string;      (* paths open(..., 'w') fails on *)
  handles : list string;         (* source videos held open *)
  trace : list event;            (* newest first *)
  ext : External;
}.

Definition with_cache (c : pyval) (w : World) : World :=
  {| output_dir := output_dir w; openpose_path := openpose_path w;
     metadata_cache := c; files := files w; unwritable := unwritable w;
     handles := handles w; trace := trace w; ext := ext w |}.

Definition with_files (f : gmap string file) (w : World) : World :=
  {| output_dir := output_dir w; openpose_path := openpose_path w;
     metadata_cache := metadata_cache w; files := f;
     unwritable := unwritable w; handles := handles w; trace := trace w;
     ext := ext w |}.

Definition with_handles (h : list string) (w : World) : World :=
  {| output_dir := output_dir w; openpose_path := openpose_path w;
     metadata_cache := metadata_cache w; files := files w;
     unwritable := unwritable w; handles := h; trace := trace w;
     ext := ext w |}.

Definition with_trace (t : list event) (w : World) : World :=
  {| output_dir := output_dir w; openpose_path := openpose_path w;
     metadata_cache := metadata_cache w; files := files w;
     unwritable := unwritable w; handles := handles w; trace := t;
     ext := ext w |}.

(** [Path / name], for a relative [name] and paths in normal form (no
    ["./"], no doubled or trailing ["/"]), where pathlib only joins. *)
Definition path_join (dir name : string) : string := dir +:+ "/" +:+ name.
Infix "//" := path_join (at level 40, left associativity).

Definition videos_dir (w : World) : string := output_dir w // "videos".
Definition pose_dir (w : World) : string := output_dir w // "poses".
Definition metadata_dir (w : World) : string := output_dir w // "metadata".
Definition raw_data_dir (w : World) : string := output_dir w // "raw".

(** ** The state-and-exception monad *)

Definition M (A : Type) : Type := World -> result A * World.

Definition ret {A : Type} (a : A) : M A := fun w => (Ok a, w).
Definition raise {A : Type} (e : exn) : M A := fun w => (Raise e, w).
Definition lift {A : Type} (r : result A) : M A := fun w => (r, w).
Definition bind {A B : Type} (m : M A) (k : A -> M B) : M B :=
  fun w =>
    match m w with
    | (Ok a, w') => k a w'
    | (Raise e, w') => (Raise e, w')
    end.
Definition self : M World := fun w => (Ok w, w).

Notation "'let!' x ':=' e 'in' k" := (bind e (fun x => k))
  (at level 10, x name, e at level 100, k at level 200).
Notation "e1 ';;;' e2" := (bind e1 (fun _ => e2))
  (at level 100, e2 at level 200, right associativity).

(** [try: body / except <matching>: handler] *)
Definition try_except {A : Type} (body : M A) (matching : exn -> bool)
  (handler : exn -> M A) : M A :=
  fun w =>
    match body w with
    | (Raise e, w') => if matching e then handler e w' else (Raise e, w')
    | r => r
    end.

Definition emit (e : event) : M unit :=
  fun w => (Ok tt, with_trace (e :: trace w) w).

Definition log (lvl : level) (msg : string) (cause : option exn) : M unit :=
  emit (EvLog lvl msg cause).

(** [path.exists()] *)
Definition path_exists (p : string) : M bool :=
  fun w => (Ok (match files w !! p with Some _ => true | None => false end), w).

(** [with open(p, 'r') as f: json.load(f)] *)
Definition read_json (p : string) : M pyval :=
  fun w =>
    match files w !! p with
    | None => (Raise (FileNotFoundError p), w)
    | Some FDir => (Raise OSError, w)
    | Some FBlob => (Raise JSONDecodeError, with_trace (EvRead p :: trace w) w)
    | Some (FJson v) => (Ok v, with_trace (EvRead p :: trace w) w)
    end.

(** Whether [open(p, 'w')] succeeds. *)
Definition can_write (w : World) (p : string) : bool :=
  negb (bool_decide (p ∈ unwritable w)) &&
  match files w !! p with Some FDir => false | _ => true end.

(** [with open(p, 'w') as f: json.dump(v, f, indent=2)] *)
Definition write_json (p : string) (v : pyval) : M unit :=
  fun w =>
    if can_write w p
    then (Ok tt, with_files (<[p := FJson v]> (files w))
                   (with_trace (EvWrite p :: trace w) w))
    else (Raise OSError, w).

(** ** [WASLProcessor.__init__] *)

(** The directories a path runs through, outermost first, the path
    itself last. *)
Fixpoint ancestors_go (seen rest : string) : list string :=
  match rest with
  | EmptyString => [seen]
  | String c r =>
      ((if Ascii.eqb c "/"%char && negb (String.eqb seen "") then [seen] else [])
         ++ ancestors_go (seen +:+ String c EmptyString) r)%list
  end.

Definition ancestors (p : string) : list string := ancestors_go "" p.

Definition mkdir_one (p : string) : M unit :=
  fun w =>
    match files w !! p with
    | Some FDir => (Ok tt, w)
    | Some _ => (Raise OSError, w)
    | None => (Ok tt, with_files (<[p := FDir]> (files w)) w)
    end.

(** [dir_path.mkdir(parents=True, exist_ok=True)] *)
Definition mkdir (p : string) : M unit :=
  foldr (fun d k => mkdir_one d ;;; k) (ret tt) (ancestors p).

Definition WASLProcessor_init (dir : string) (fs : gmap string file)
  (ro : gset string) (x : External) : result unit * World :=
  let w := {| output_dir := dir; openpose_path := "path/to/openpose";
              metadata_cache := PDict []; files := fs; unwritable := ro;
              handles := []; trace := []; ext := x |} in
  (mkdir (videos_dir w) ;;; mkdir (pose_dir w) ;;;
   mkdir (metadata_dir w) ;;; mkdir (raw_data_dir w)) w.

(** ** [_process_WASL_structure] *)

Definition _process_WASL_structure : M unit :=
  log INFO "Processing WASL dataset structure..." None ;;;
  let! w := self in
  let wasl_dir := raw_data_dir w // "WASL" in
  let! found := path_exists wasl_dir in
  if negb found
  then raise (FileNotFoundError "WASL directory not found in extracted files")
  else
    let annotations_file := wasl_dir // "annotations.json" in
    let! found := path_exists annotations_file in
    if negb found
    then raise (FileNotFoundError "WASL annotations file not found")
    else
      let! annotations := read_json annotations_file in
      let! metadata := lift (normalize annotations) in
      write_json (metadata_dir w // "wasl_metadata.json") (PList metadata) ;;;
      log INFO ("Processed " +:+ pretty (length metadata)
                +:+ " entries from WASL dataset") None.

(** ** [_get_word_timestamps] *)

(** [[entry for entry in cache if entry['video_id'] == video_id]] *)
Fixpoint video_entries_of (video_id : string) (entries : list pyval)
  : result (list pyval) :=
  match entries with
  | [] => Ok []
  | entry :: rest =>
      let? v := py_getitem entry "video_id" in
      let? rest' := video_entries_of video_id rest in
      Ok (if py_eqb v (PStr video_id) then entry :: rest' else rest')
  end.

Fixpoint timestamps_loop (video_entries : list pyval)
  (word_timestamps : list (pyval * (pyval * pyval)))
  : result (list (pyval * (pyval * pyval))) :=
  match video_entries with
  | [] => Ok word_timestamps
  | entry :: rest =>
      let? word := py_getitem entry "word" in
      let? start_time := py_getitem entry "start_time" in
      let? end_time := py_getitem entry "end_time" in
      let? d := py_setitem word (start_time, end_time) word_timestamps in
      timestamps_loop rest d
  end.

Definition set_metadata_cache (v : pyval) : M unit :=
  fun w => (Ok tt, with_cache v w).

Definition _get_word_timestamps (video_id : string)
  : M (list (pyval * (pyval * pyval))) :=
  let! w := self in
  let! cached := lift (py_contains (metadata_cache w) (PStr video_id)) in
  (if negb cached then
     let metadata_path := metadata_dir w // "wasl_metadata.json" in
     let! found := path_exists metadata_path in
     if negb found
     then raise (FileNotFoundError "WASL metadata file not found")
     else
       let! v := read_json metadata_path in
       set_metadata_cache v
   else ret tt) ;;;
  let! w := self in
  let! entries := lift (py_iter (metadata_cache w)) in
  let! video_entries := lift (video_entries_of video_id entries) in
  match video_entries with
  | [] =>
      log WARNING ("No metadata found for video " +:+ video_id) None ;;;
      ret []
  | _ => lift (timestamps_loop video_entries [])
  end.

(** ** [download_wasl_videos] *)

(** [f"{v}"] *)
Definition format_value (w : World) (v : pyval) : string :=
  match v with
  | PStr s => s
  | _ => py_str (ext w) v
  end.

Definition add_blobs (paths : list string) (fs : gmap string file)
  : gmap string file :=
  foldr (fun p acc => <[p := FBlob]> acc) fs paths.

(** [ydl.download([url])] *)
Definition ydl_download_call (url : string) : M unit :=
  fun w =>
    let '(created, err) := ydl_download (ext w) (trace w) url in
    let w' := with_files (add_blobs created (files w))
                (with_trace (EvFetch url :: trace w) w) in
    match err with
    | Some e => (Raise e, w')
    | None => (Ok tt, w')
    end.

Definition video_file (w : World) (video_id : pyval) : string :=
  videos_dir w // (format_value w video_id +:+ ".mp4").

Definition watch_url (w : World) (video_id : pyval) : string :=
  "https://www.youtube.com/watch?v=" +:+ format_value w video_id.

(** The [try] block of one iteration; it returns the binding of the
    local [video_id] after the block. *)
Definition download_try (entry : pyval) : M (option pyval) :=
  fun w =>
    match py_getitem entry "video_id" with
    | Raise e => (Raise e, w)
    | Ok video_id =>
        match files w !! video_file w video_id with
        | Some _ => (Ok (Some video_id), w)
        | None =>
            match ydl_download_call (watch_url w video_id) w with
            | (Ok _, w') => (Ok (Some video_id), w')
            | (Raise e, w') => (Raise e, w')
            end
        end
    end.

(** The local [video_id] after the [try] block: the assignment is its
    first statement, so it is bound as soon as the subscript succeeded. *)
Definition video_id_after (entry : pyval) (bound : option pyval) : option pyval :=
  match py_getitem entry "video_id" with
  | Ok v => Some v
  | Raise _ => bound
  end.

(** One iteration with its [except Exception] handler, which formats the
    local [video_id]: unbound when the very first subscript failed. *)
Definition download_entry (entry : pyval) (bound : option pyval)
  : M (option pyval) :=
  try_except (download_try entry) is_Exception
    (fun e =>
       match video_id_after entry bound with
       | None => raise (UnboundLocalError "video_id")
       | Some v =>
           let! w := self in
           log ERROR ("Error downloading video " +:+ format_value w v) (Some e) ;;;
           ret (Some v)
       end).

Fixpoint download_loop (entries : list pyval) (bound : option pyval) : M unit :=
  match entries with
  | [] => ret tt
  | entry :: rest =>
      let! bound' := download_entry entry bound in
      download_loop rest bound'
  end.

Definition download_wasl_videos (wasl_metadata_path : string) : M unit :=
  log INFO "Starting WASL video downloads..." None ;;;
  let! metadata := read_json wasl_metadata_path in
  let! entries := lift (py_iter metadata) in
  download_loop entries None.

(** ** [split_video_into_words] *)

(** A [pathlib.Path], kept split as [parent / (stem + suffix)]. *)
Record Path : Type := { parent : string; stem : string; suffix : string }.

Definition path_str (p : Path) : string := parent p // (stem p +:+ suffix p).

Fixpoint remove_first (p : string) (l : list string) : list string :=
  match l with
  | [] => []
  | q :: r => if String.eqb p q then r else q :: remove_first p r
  end.

(** [VideoFileClip(path)] *)
Definition video_open_call (path : string) : M unit :=
  fun w =>
    let w' := with_trace (EvVideoOpen path :: trace w) w in
    match video_open (ext w) (trace w) path with
    | Some e => (Raise e, w')
    | None => (Ok tt, with_handles (path :: handles w') w')
    end.

(** [video.close()] *)
Definition video_close_call (path : string) : M unit :=
  fun w =>
    (Ok tt, with_handles (remove_first path (handles w))
              (with_trace (EvVideoClose path :: trace w) w)).

(** [video.subclip(start, end)] *)
Definition subclip_call (path : string) (t0 t1 : pyval) : M unit :=
  fun w =>
    let w' := with_trace (EvSubclip path t0 t1 :: trace w) w in
    match video_subclip (ext w) (trace w) path t0 t1 with
    | Some e => (Raise e, w')
    | None => (Ok tt, w')
    end.

(** [clip.write_videofile(out, codec='libx264', audio=False)] *)
Definition write_videofile_call (out : string) : M unit :=
  fun w =>
    let w' := with_trace (EvEncode out :: trace w) w in
    match write_videofile (ext w) (trace w) out with
    | Some e => (Raise e, w')
    | None => (Ok tt, with_files (<[out := FBlob]> (files w')) w')
    end.

Definition clip_path (w : World) (video_path : Path) (word : pyval) : Path :=
  {| parent := videos_dir w;
     stem := stem video_path +:+ "_" +:+ format_value w word;
     suffix := ".mp4" |}.

Fixpoint split_loop (video_path : Path)
  (items : list (pyval * (pyval * pyval))) (word_clips : list (pyval * Path))
  : M (list (pyval * Path)) :=
  match items with
  | [] => ret word_clips
  | (word, (t0, t1)) :: rest =>
      subclip_call (path_str video_path) t0 t1 ;;;
      let! w := self in
      let output_path := clip_path w video_path word in
      write_videofile_call (path_str output_path) ;;;
      split_loop video_path rest (word_clips ++ [(word, output_path)])
  end.

Definition split_video_into_words (video_path : Path)
  (word_timestamps : list (pyval * (pyval * pyval)))
  : M (list (pyval * Path)) :=
  video_open_call (path_str video_path) ;;;
  let! word_clips := split_loop video_path word_timestamps [] in
  video_close_call (path_str video_path) ;;;
  ret word_clips.

(** ** [process_with_openpose] *)

Definition openpose_cmd (w : World) (video_path : Path) : list string :=
  [openpose_path w // "build/examples/openpose/openpose.bin";
   "--video"; path_str video_path;
   "--write_json"; pose_dir w;
   "--display"; "0";
   "--render_pose"; "0"].

Definition add_files (created : list (string * file)) (fs : gmap string file)
  : gmap string file :=
  foldr (fun kv acc => <[fst kv := snd kv]> acc) fs created.

(** [subprocess.run(cmd, check=True)] *)
Definition subprocess_run_checked (cmd : list string) : M unit :=
  fun w =>
    let w' := with_trace (EvRun cmd :: trace w) w in
    match subprocess_run (ext w) (trace w) cmd with
    | Raise e => (Raise e, w')
    | Ok (code, created) =>
        let w'' := with_files (add_files created (files w')) w' in
        if Z.eqb code 0 then (Ok tt, w'') else (Raise CalledProcessError, w'')
    end.

Definition is_CalledProcessError (e : exn) : bool :=
  match e with CalledProcessError => true | _ => false end.

Definition process_with_openpose (video_path : Path) : M unit :=
  let! w := self in
  try_except
    (subprocess_run_checked (openpose_cmd w video_path) ;;;
     log INFO ("Processed " +:+ path_str video_path +:+ " with OpenPose") None)
    is_CalledProcessError
    (fun e =>
       log ERROR ("Error processing " +:+ path_str video_path +:+ " with OpenPose")
         (Some e)).

(** ** [create_word_pose_mapping] *)

Definition pose_file (w : World) (video_id : pyval) : string :=
  pose_dir w // (format_value w video_id +:+ ".json").

Definition mapping_path (w : World) : string :=
  metadata_dir w // "word_pose_mapping.json".

Fixpoint mapping_loop (entries : list pyval) (mapping : list (pyval * pyval))
  : M (list (pyval * pyval)) :=
  match entries with
  | [] => ret mapping
  | entry :: rest =>
      let! word := lift (py_getitem entry "word") in
      let! video_id := lift (py_getitem entry "video_id") in
      let! w := self in
      let! found := path_exists (pose_file w video_id) in
      if found then
        let! pose_data := read_json (pose_file w video_id) in
        let! mapping' := lift (py_setitem word pose_data mapping) in
        mapping_loop rest mapping'
      else mapping_loop rest mapping
  end.

(** The JSON object [json.dump] writes for a dict. *)
Definition dump_dict (w : World) (mapping : list (pyval * pyval)) : pyval :=
  PDict (map (fun kv =>
                (match fst kv with PStr s => s | k => json_key (ext w) k end,
                 snd kv)) mapping).

Definition create_word_pose_mapping (metadata : pyval) : M unit :=
  let! entries := lift (py_iter metadata) in
  let! mapping := mapping_loop entries [] in
  let! w := self in
  write_json (mapping_path w) (dump_dict w mapping).

(** ** [process_dataset] *)

Fixpoint openpose_loop (word_clips : list (pyval * Path)) : M unit :=
  match word_clips with
  | [] => ret tt
  | (_, clip) :: rest => process_with_openpose clip ;;; openpose_loop rest
  end.

Definition process_video (video_path : Path) : M unit :=
  let! word_timestamps := _get_word_timestamps (stem video_path) in
  let! word_clips := split_video_into_words video_path word_timestamps in
  openpose_loop word_clips.

Fixpoint process_videos (video_paths : list Path) : M unit :=
  match video_paths with
  | [] => ret tt
  | p :: rest => process_video p ;;; process_videos rest
  end.

Fixpoint strip_prefix (p s : string) : option string :=
  match p, s with
  | EmptyString, _ => Some s
  | String a p', String b s' =>
      if Ascii.eqb a b then strip_prefix p' s' else None
  | _, _ => None
  end.

(** [list(self.videos_dir.glob("*.mp4"))]; the order of a directory
    listing is the system's, here the order of the map. *)
Definition glob_mp4 (w : World) : list Path :=
  omap (fun kv =>
          name ← strip_prefix (videos_dir w +:+ "/") (fst kv);
          if substring_of "/" name then None
          else
            r ← strip_prefix (String.rev ".mp4") (String.rev name);
            Some {| parent := videos_dir w; stem := String.rev r;
                    suffix := ".mp4" |})
       (map_to_list (files w)).

Definition process_dataset (wasl_metadata_path : string) : M unit :=
  log INFO "Starting WASL dataset processing..." None ;;;
  download_wasl_videos wasl_metadata_path ;;;
  let! w := self in
  process_videos (glob_mp4 w) ;;;
  let! metadata := read_json wasl_metadata_path in
  create_word_pose_mapping metadata ;;;
  log INFO "WASL dataset processing completed!" None.

(** ** The download loop of [get_WLASL.py] *)

Record sample : Type := { gloss : pyval; video : string; instance_id : pyval }.

Definition raw_video_path (w : World) (s : sample) : string :=
  "data/raw_videos/" +:+ format_value w (gloss s) +:+ "_"
    +:+ format_value w (instance_id s) +:+ ".mp4".

(** [urllib.request.urlretrieve(url, out_path)] *)
Definition urlretrieve_call (url out : string) : M unit :=
  fun w =>
    let '(created, err) := urlretrieve (ext w) (trace w) url out in
    let w' := with_files (if created then <[out := FBlob]> (files w) else files w)
                (with_trace (EvFetch url :: trace w) w) in
    match err with
    | Some e => (Raise e, w')
    | None => (Ok tt, w')
    end.

(** One iteration. The second message is the text before the [": {e}"]
    of the code: the text of an exception is not modelled. *)
Definition get_sample (s : sample) : M unit :=
  let! w := self in
  let out_path := raw_video_path w s in
  let! found := path_exists out_path in
  if negb found then
    try_except
      (emit (EvPrint ("Downloading: " +:+ format_value w (gloss s)
                      +:+ " (instance " +:+ format_value w (instance_id s)
                      +:+ ")")) ;;;
       urlretrieve_call (video s) out_path)
      is_Exception
      (fun e => emit (EvPrint ("Failed to download " +:+ video s)))
  else ret tt.

Fixpoint get_WLASL_loop (dataset : list sample) : M unit :=
  match dataset with
  | [] => ret tt
  | s :: rest => get_sample s ;;; get_WLASL_loop rest
  end.

(** ** [get_WASL] *)

(** What [get_WASL] asks of [requests] and [zipfile]; as the other
    oracles, each sees the trace so far. *)
Record Archive : Type := {
  (* [requests.get(url, stream=True)]: the exception, if it raises *)
  requests_get : list event -> string -> option exn;
  (* [int(response.headers.get('content-length', 0))] *)
  content_length : list event -> string -> result Z;
  (* writing the chunks of [response.iter_content] into the open file *)
  iter_content : list event -> string -> option exn;
  (* [ZipFile(zip).extractall(dest)]: the files extracted, the exception
     if it raises *)
  extractall : list event -> string -> string -> list (string * file) * option exn;
}.

Definition default_dataset_url : string :=
  "https://github.com/dxli94/WASL/raw/master/WASL.zip".

Definition requests_get_call (a : Archive) (url : string) : M unit :=
  fun w =>
    let w' := with_trace (EvFetch url :: trace w) w in
    match requests_get a (trace w) url with
    | Some e => (Raise e, w')
    | None => (Ok tt, w')
    end.

Definition content_length_call (a : Archive) (url : string) : M Z :=
  fun w => (content_length a (trace w) url, w).

(** [open(p, 'wb')] *)
Definition open_wb (p : string) : M unit :=
  fun w =>
    if can_write w p
    then (Ok tt, with_files (<[p := FBlob]> (files w))
                   (with_trace (EvWrite p :: trace w) w))
    else (Raise OSError, w).

Definition iter_content_call (a : Archive) (url : string) : M unit :=
  fun w =>
    match iter_content a (trace w) url with
    | Some e => (Raise e, w)
    | None => (Ok tt, w)
    end.

Definition extractall_call (a : Archive) (zip dest : string) : M unit :=
  fun w =>
    let '(created, err) := extractall a (trace w) zip dest in
    let w' := with_files (add_files created (files w)) w in
    match err with
    | Some e => (Raise e, w')
    | None => (Ok tt, w')
    end.

(** [path.unlink()] *)
Definition unlink (p : string) : M unit :=
  fun w =>
    match files w !! p with
    | None => (Raise (FileNotFoundError p), w)
    | Some FDir => (Raise OSError, w)
    | Some _ => (Ok tt, with_files (delete p (files w)) w)
    end.

Definition zip_path (w : World) : string := raw_data_dir w // "WASL.zip".

(** The body of the [try] block. *)
Definition get_WASL_body (a : Archive) (dataset_url : string) : M unit :=
  let! w := self in
  log INFO ("Downloading WASL dataset from " +:+ dataset_url) None ;;;
  requests_get_call a dataset_url ;;;
  let! total_size := content_length_call a dataset_url in
  open_wb (zip_path w) ;;;
  iter_content_call a dataset_url ;;;
  log INFO "Extracting WASL dataset..." None ;;;
  extractall_call a (zip_path w) (raw_data_dir w) ;;;
  _process_WASL_structure ;;;
  unlink (zip_path w) ;;;
  log INFO "WASL dataset download and processing completed!" None.

Definition get_WASL_error : string :=
  "Error downloading or processing WASL dataset".

Definition get_WASL (a : Archive) (dataset_url : option string) : M unit :=
  log INFO "Starting WASL dataset download and processing..." None ;;;
  let dataset_url :=
    match dataset_url with Some u => u | None => default_dataset_url end in
  try_except (get_WASL_body a dataset_url) is_Exception
    (fun e => log ERROR get_WASL_error (Some e) ;;; raise e).

(** * Vocabulary of the specification *)

(** ** Annotation records *)

(** A raw record follows the annotation schema when each of the four
    meaningful fields is absent or has the type the schema gives it;
    any other field is arbitrary. *)
Definition str_field (d : list (string * pyval)) (k : string) : bool :=
  match alist_get k d with
  | None | Some (PStr _) => true
  | _ => false
  end.

Definition num_field (d : list (string * pyval)) (k : string) : bool :=
  match alist_get k d with
  | None | Some (PNum _) => true
  | _ => false
  end.

Definition schema_typed (d : list (string * pyval)) : bool :=
  str_field d "video_id" && str_field d "word" &&
  num_field d "start_time" && num_field d "end_time".

Definition rec_str (d : list (string * pyval)) (k : string) : string :=
  match alist_get k d with Some (PStr s) => s | _ => "" end.

Definition rec_num (d : list (string * pyval)) (k : string) : Q :=
  match alist_get k d with Some (PNum q) => q | _ => 0%Q end.

(** The validity test in the words of the specification. *)
Definition valid_record (d : list (string * pyval)) : Prop :=
  rec_str d "video_id" <> "" /\ rec_str d "word" <> "" /\
  (rec_num d "start_time" < rec_num d "end_time")%Q.

Definition valid_recordb (d : list (string * pyval)) : bool :=
  negb (String.eqb (rec_str d "video_id") "") &&
  negb (String.eqb (rec_str d "word") "") &&
  Qltb (rec_num d "start_time") (rec_num d "end_time").

Definition canonical (d : list (string * pyval)) : pyval :=
  metadata_entry (PStr (rec_str d "video_id")) (PStr (rec_str d "word"))
    (PNum (rec_num d "start_time")) (PNum (rec_num d "end_time")).

(** The artifacts of normalisation. *)
Definition wasl_dir (w : World) : string := raw_data_dir w // "WASL".
Definition annotations_path (w : World) : string :=
  wasl_dir w // "annotations.json".
Definition metadata_path (w : World) : string :=
  metadata_dir w // "wasl_metadata.json".

(** ** Canonical metadata *)

Record MetadataEntry : Type := {
  video_id : string;
  word : string;
  start_time : Q;
  end_time : Q;
}.

(** The JSON object of a canonical entry. *)
Definition entry_py (e : MetadataEntry) : pyval :=
  metadata_entry (PStr (video_id e)) (PStr (word e))
    (PNum (start_time e)) (PNum (end_time e)).

(** The value of the cache on a fresh processor, or a loaded array of
    JSON objects. *)
Definition cache_ok (w : World) : Prop :=
  metadata_cache w = PDict [] \/
  exists ds, metadata_cache w = PList (map PDict ds).

Definition is_read (p : string) (e : event) : bool :=
  match e with EvRead q => String.eqb p q | _ => false end.

(** How often the file [p] was opened for reading. *)
Definition reads (p : string) (w : World) : nat :=
  length (List.filter (is_read p) (trace w)).

Definition same_video_word (vid wd : string) (e : MetadataEntry) : bool :=
  String.eqb (video_id e) vid && String.eqb (word e) wd.

(** The assignment [word_timestamps[word] = (start_time, end_time)] for a
    canonical entry. *)
Definition bind_entry (d : list (pyval * (pyval * pyval))) (e : MetadataEntry)
  : list (pyval * (pyval * pyval)) :=
  dict_set (PStr (word e)) (PNum (start_time e), PNum (end_time e)) d.

Definition is_fetch (url : string) (e : event) : bool :=
  match e with EvFetch u => String.eqb url u | _ => false end.

(** How often the network fetch of [url] was invoked. *)
Definition fetches (url : string) (w : World) : nat :=
  length (List.filter (is_fetch url) (trace w)).

Definition is_log (e : event) : bool :=
  match e with EvLog _ _ _ => true | _ => false end.

(** ** Segmentation *)

(** moviepy opens, cuts and encodes whatever it is asked to. *)
Definition segmentation_succeeds (x : External) : Prop :=
  (forall tr path, video_open x tr path = None) /\
  (forall tr path t0 t1, video_subclip x tr path t0 t1 = None) /\
  (forall tr out, write_videofile x tr out = None).

(** The clip [split_video_into_words] names for an item. *)
Definition clip_of (w : World) (video_path : Path)
  (item : pyval * (pyval * pyval)) : pyval * Path :=
  (fst item, clip_path w video_path (fst item)).

(** ** Pose files *)

Definition entry_pose_path (w : World) (e : MetadataEntry) : string :=
  pose_file w (PStr (video_id e)).

(** The pose file of the entry is absent or a JSON document. *)
Definition pose_ok (w : World) (e : MetadataEntry) : bool :=
  match files w !! entry_pose_path w e with
  | None | Some (FJson _) => true
  | _ => false
  end.

(** The assignment [mapping[word] = pose_data] of an entry whose pose
    file is there. *)
Definition bind_pose (w : World) (d : list (pyval * pyval)) (e : MetadataEntry)
  : list (pyval * pyval) :=
  match files w !! entry_pose_path w e with
  | Some (FJson v) => dict_set (PStr (word e)) v d
  | _ => d
  end.

(** The pose data of the last entry with word [wd] that has a pose file. *)
Definition pose_step (w : World) (wd : string) (acc : option pyval)
  (e : MetadataEntry) : option pyval :=
  if String.eqb (word e) wd then
    match files w !! entry_pose_path w e with
    | Some (FJson v) => Some v
    | _ => acc
    end
  else acc.

Definition last_pose (w : World) (entries : list MetadataEntry) (wd : string)
  : option pyval :=
  fold_left (pose_step w wd) entries None.

(** [w'] differs from [w] in its trace only. *)
Definition only_trace (w w' : World) : Prop := w' = with_trace (trace w') w.

Definition str_keys {V : Type} (d : list (pyval * V)) : Prop :=
  Forall (fun kv => exists s, fst kv = PStr s) d.

(** ** Example data *)

Definition no_tools : External :=
  {| py_str := fun _ => "?"; json_key := fun _ => "?";
     ydl_download := fun _ _ => ([], Some (ExternalError "DownloadError"));
     urlretrieve := fun _ _ _ => (false, Some (ExternalError "URLError"));
     video_open := fun _ _ => None;
     video_subclip := fun _ _ _ _ => None;
     write_videofile := fun _ _ => None;
     subprocess_run := fun _ _ => Raise (FileNotFoundError "openpose.bin") |}.

Definition hi_0_1 : MetadataEntry :=
  {| video_id := "v1"; word := "hi"; start_time := 0; end_time := 1 |}.
Definition hi_5_6 : MetadataEntry :=
  {| video_id := "v1"; word := "hi"; start_time := 5; end_time := 6 |}.
Definition dog_1_3 : MetadataEntry :=
  {| video_id := "v2"; word := "dog"; start_time := 1; end_time := 3 |}.

Definition raw_records : list (list (string * pyval)) :=
  [ [("video_id", PStr "v1"); ("word", PStr "hello");
     ("start_time", PNum 5); ("end_time", PNum 3)];
    [("video_id", PStr "v1"); ("word", PStr "hello");
     ("start_time", PNum 1); ("end_time", PNum 2)];
    [("word", PStr "orphan"); ("end_time", PNum 2)] ].

(** The fields of a fresh [WASLProcessor()], on the file system [fs]. *)
Definition world_of (fs : gmap string file) (x : External) : World :=
  {| output_dir := "data/wasl_processed"; openpose_path := "path/to/openpose";
     metadata_cache := PDict []; files := fs; unwritable := ∅;
     handles := []; trace := []; ext := x |}.

Definition raw_world : World :=
  world_of {[ "data/wasl_processed/raw/WASL" := FDir;
              "data/wasl_processed/raw/WASL/annotations.json" :=
                FJson (PList (map PDict raw_records)) ]} no_tools.

Definition metadata_world : World :=
  world_of {[ "data/wasl_processed/metadata/wasl_metadata.json" :=
                FJson (PList (map entry_py [hi_0_1; hi_5_6; dog_1_3])) ]}
           no_tools.

Definition webm_world : World :=
  world_of {[ "data/wasl_processed/videos/v1.webm" := FBlob ]} no_tools.

(** yt-dlp delivering every video as [<id>.mp4]. *)
Definition mp4_tools : External :=
  {| py_str := py_str no_tools; json_key := json_key no_tools;
     ydl_download := fun _ url =>
       match strip_prefix "https://www.youtube.com/watch?v=" url with
       | Some id => (["data/wasl_processed/videos/" +:+ id +:+ ".mp4"], None)
       | None => ([], Some (ExternalError "DownloadError"))
       end;
     urlretrieve := fun _ _ _ => (true, None);
     video_open := video_open no_tools;
     video_subclip := video_subclip no_tools;
     write_videofile := write_videofile no_tools;
     subprocess_run := subprocess_run no_tools |}.

(** An OpenPose binary that starts and exits with status 1. *)
Definition crash_tools : External :=
  {| py_str := py_str no_tools; json_key := json_key no_tools;
     ydl_download := ydl_download no_tools;
     urlretrieve := urlretrieve no_tools;
     video_open := video_open no_tools;
     video_subclip := video_subclip no_tools;
     write_videofile := write_videofile no_tools;
     subprocess_run := fun _ _ => Ok (1%Z, []) |}.

Definition src_video : Path :=
  {| parent := "data/wasl_processed/videos"; stem := "v1"; suffix := ".mp4" |}.

Definition clip_hi : Path :=
  {| parent := "data/wasl_processed/videos"; stem := "v1_hi"; suffix := ".mp4" |}.

Definition clip_dog : Path :=
  {| parent := "data/wasl_processed/videos"; stem := "v1_dog"; suffix := ".mp4" |}.

(** A source video shorter than 99 seconds: cutting up to second 99
    fails. *)
Definition short_tools : External :=
  {| py_str := py_str no_tools; json_key := json_key no_tools;
     ydl_download := ydl_download no_tools;
     urlretrieve := urlretrieve no_tools;
     video_open := video_open no_tools;
     video_subclip := fun _ _ _ t1 =>
       if py_eqb t1 (PNum 99) then Some (ExternalError "ValueError: end beyond duration")
       else None;
     write_videofile := write_videofile no_tools;
     subprocess_run := subprocess_run no_tools |}.

Definition hi_then_dog : list (pyval * (pyval * pyval)) :=
  [(PStr "hi", (PNum 0, PNum 99)); (PStr "dog", (PNum 1, PNum 3))].

Definition dog_only : list (pyval * (pyval * pyval)) :=
  [(PStr "dog", (PNum 1, PNum 3))].

(** The source video v1 is on disk. *)
Definition video_world (x : External) : World :=
  world_of {[ "data/wasl_processed/videos/v1.mp4" := FBlob ]} x.

(** The two clips of v1 are on disk. *)
Definition clips_world (x : External) : World :=
  world_of {[ "data/wasl_processed/videos/v1.mp4" := FBlob;
              "data/wasl_processed/videos/v1_hi.mp4" := FBlob;
              "data/wasl_processed/videos/v1_dog.mp4" := FBlob ]} x.

Definition hi_v2 : MetadataEntry :=
  {| video_id := "v2"; word := "hi"; start_time := 2; end_time := 3 |}.

Definition pose_json : pyval := PDict [("people", PList [])].

(** The pose of video v1 was extracted, the one of v2 was not. *)
Definition pose_world : World :=
  world_of {[ "data/wasl_processed/poses/v1.json" := FJson pose_json ]} no_tools.

(** The pose file of v1 is there but holds no JSON. *)
Definition garbled_world : World :=
  world_of {[ "data/wasl_processed/poses/v1.json" := FBlob ]} no_tools.

(** ** Further vocabulary *)

(** The fields of a canonical entry, as a raw record. *)
Definition canonical_fields (d : list (string * pyval)) : list (string * pyval) :=
  [("video_id", PStr (rec_str d "video_id")); ("word", PStr (rec_str d "word"));
   ("start_time", PNum (rec_num d "start_time"));
   ("end_time", PNum (rec_num d "end_time"))].

(** [entry.get(key, default)] on the fields of a JSON object. *)
Definition field_or (d : list (string * pyval)) (key : string) (default : pyval)
  : pyval :=
  match alist_get key d with Some v => v | None => default end.

(** A world where the raw directory is there but holds no annotations. *)
Definition no_annotations_world : World :=
  world_of {[ "data/wasl_processed/raw/WASL" := FDir;
              "data/wasl_processed/metadata/wasl_metadata.json" :=
                FJson (PList [entry_py hi_0_1]) ]} no_tools.

(** Records with a time given as text. *)
Definition text_time_records : list (list (string * pyval)) :=
  [ [("video_id", PStr "v1"); ("word", PStr "hello");
     ("start_time", PNum 1); ("end_time", PNum 2)];
    [("video_id", PStr "v1"); ("word", PStr "bye");
     ("start_time", PStr "0:03"); ("end_time", PNum 4)];
    [("video_id", PStr "v2"); ("word", PStr "dog");
     ("start_time", PNum 1); ("end_time", PNum 3)] ].

Definition text_time_world : World :=
  world_of {[ "data/wasl_processed/raw/WASL" := FDir;
              "data/wasl_processed/raw/WASL/annotations.json" :=
                FJson (PList (map PDict text_time_records)) ]} no_tools.

(** The canonical entry of a raw record. *)
Definition to_entry (d : list (string * pyval)) : MetadataEntry :=
  {| video_id := rec_str d "video_id"; word := rec_str d "word";
     start_time := rec_num d "start_time"; end_time := rec_num d "end_time" |}.

(** The interval of the last valid record of video [vid] with word [wd]. *)
Definition interval_step (vid wd : string) (acc : option (pyval * pyval))
  (d : list (string * pyval)) : option (pyval * pyval) :=
  if valid_recordb d && String.eqb (rec_str d "video_id") vid
     && String.eqb (rec_str d "word") wd
  then Some (PNum (rec_num d "start_time"), PNum (rec_num d "end_time"))
  else acc.

Definition last_valid_interval (records : list (list (string * pyval)))
  (vid wd : string) : option (pyval * pyval) :=
  fold_left (interval_step vid wd) records None.

Definition no_metadata_warning (vid : string) : event :=
  EvLog WARNING ("No metadata found for video " +:+ vid) None.

(** yt-dlp fails with ordinary exceptions only. *)
Definition ydl_raises_exceptions (x : External) : Prop :=
  forall tr url created e,
    ydl_download x tr url = (created, Some e) -> is_Exception e = true.

Definition download_error_log (w : World) (v : pyval) (e : exn) : event :=
  EvLog ERROR ("Error downloading video " +:+ format_value w v) (Some e).

(** A record of the metadata that lost its [video_id]. *)
Definition no_id_entry : pyval :=
  PDict [("word", PStr "cat"); ("start_time", PNum 0); ("end_time", PNum 2)].

(** yt-dlp leaves the video [vid] as [<vid>.mp4], whatever else it does. *)
Definition ydl_saves_mp4 (w : World) (vid : string) : Prop :=
  forall tr,
    In (video_file w (PStr vid))
       (fst (ydl_download (ext w) tr (watch_url w (PStr vid)))).

Definition is_encode (e : event) : bool :=
  match e with EvEncode _ => true | _ => false end.

(** How many clips were encoded. *)
Definition encodes (w : World) : nat := length (List.filter is_encode (trace w)).

Definition is_run (e : event) : bool :=
  match e with EvRun _ => true | _ => false end.

(** How many external processes were started. *)
Definition runs (w : World) : nat := length (List.filter is_run (trace w)).

(** The OpenPose binary can be started, whatever its exit status. *)
Definition openpose_launches (x : External) : Prop :=
  forall tr cmd, exists code created, subprocess_run x tr cmd = Ok (code, created).

(** Both clips of v1 are on disk already. *)
Definition resegment_world : World := clips_world no_tools.

Definition dog_then_hi : list (pyval * (pyval * pyval)) :=
  [(PStr "dog", (PNum 1, PNum 3)); (PStr "hi", (PNum 0, PNum 1))].

(** A video that no entry of the metadata names. *)
Definition v3_video : Path :=
  {| parent := "data/wasl_processed/videos"; stem := "v3"; suffix := ".mp4" |}.

(** A metadata record that lost its [word]. *)
Definition no_word_entry : list (string * pyval) :=
  [("video_id", PStr "v7"); ("start_time", PNum 0); ("end_time", PNum 2)].

(** [w'] has the directories of [w] and every path [w] has. *)
Definition grows (w w' : World) : Prop :=
  output_dir w' = output_dir w /\
  forall q, is_Some (files w !! q) -> is_Some (files w' !! q).

(** A server and an archive in good order. *)
Definition good_archive : Archive :=
  {| requests_get := fun _ _ => None;
     content_length := fun _ _ => Ok 1024%Z;
     iter_content := fun _ _ => None;
     extractall := fun _ _ dest =>
       ([(dest // "WASL", FDir);
         (dest // "WASL" // "annotations.json",
          FJson (PList (map PDict raw_records)))], None) |}.

(** The server answers, but what it sends is no zip archive. *)
Definition bad_zip_archive : Archive :=
  {| requests_get := fun _ _ => None;
     content_length := fun _ _ => Ok 0%Z;
     iter_content := fun _ _ => None;
     extractall := fun _ _ _ => ([], Some (ExternalError "BadZipFile")) |}.

(** The request goes through and the size header is a number. *)
Definition download_starts (a : Archive) (url : string) : Prop :=
  (forall tr, requests_get a tr url = None) /\
  (forall tr, exists n, content_length a tr url = Ok n).

(** The URL [get_WASL] downloads from. *)
Definition resolved_url (dataset_url : option string) : string :=
  match dataset_url with Some u => u | None => default_dataset_url end.

(** urllib fails with ordinary exceptions only. *)
Definition urlretrieve_raises_exceptions (x : External) : Prop :=
  forall tr url out created e,
    urlretrieve x tr url out = (created, Some e) -> is_Exception e = true.

Definition is_any_fetch (e : event) : bool :=
  match e with EvFetch _ => true | _ => false end.

(** How many network fetches were started. *)
Definition attempts (w : World) : nat :=
  length (List.filter is_any_fetch (trace w)).

Definition book_7 : sample :=
  {| gloss := PStr "book"; video := "https://example.org/book_7.mp4";
     instance_id := PStr "7" |}.

Definition drink_3 : sample :=
  {| gloss := PStr "drink"; video := "https://example.org/drink_3.mp4";
     instance_id := PStr "3" |}.

(** A connection that breaks in the middle of every transfer. *)
Definition partial_tools : External :=
  {| py_str := py_str no_tools; json_key := json_key no_tools;
     ydl_download := ydl_download no_tools;
     urlretrieve := fun _ _ _ => (true, Some (ExternalError "ContentTooShortError"));
     video_open := video_open no_tools;
     video_subclip := video_subclip no_tools;
     write_videofile := write_videofile no_tools;
     subprocess_run := subprocess_run no_tools |}.





(** From [w] to [w'] the configuration stays, no path disappears and no
    fetch is forgotten. *)
Definition advances (w w' : World) : Prop :=
  ext w' = ext w /\ output_dir w' = output_dir w /\
  (forall q, is_Some (files w !! q) -> is_Some (files w' !! q)) /\
  (forall url, fetches url w <= fetches url w').

(** * Properties *)

(** ** Generic facts *)

Arguments path_join : simpl never.
Arguments String.append : simpl never.
Arguments normalize : simpl never.
Arguments can_write : simpl never.

(** Unfolds the monad and the directories down to the record fields. *)
Ltac run :=
  unfold bind, ret, raise, lift, self, try_except, log, emit, path_exists,
    read_json, write_json, set_metadata_cache,
    videos_dir, pose_dir, metadata_dir, raw_data_dir in *;
  cbn in *.

Lemma Qltb_lt (x y : Q) : Qltb x y = true <-> (x < y)%Q.
Proof.
  unfold Qltb. rewrite negb_true_iff. split.
  - intros H. apply Qnot_le_lt. intros L.
    apply Qle_bool_iff in L. congruence.
  - intros H. destruct (Qle_bool y x) eqn:E; [|reflexivity].
    apply Qle_bool_iff in E. exfalso. exact (Qlt_not_le _ _ H E).
Qed.

Lemma nonempty_eqb (s : string) : negb (String.eqb s "") = true <-> s <> "".
Proof.
  rewrite negb_true_iff. split.
  - intros H ->. discriminate.
  - intros H. destruct (String.eqb_spec s ""); congruence.
Qed.

Lemma can_write_with_trace t w p : can_write (with_trace t w) p = can_write w p.
Proof. reflexivity. Qed.

Lemma can_write_with_cache c w p : can_write (with_cache c w) p = can_write w p.
Proof. reflexivity. Qed.

(** The constructor creates the four directories with their parents and
    starts with an empty dict as cache. *)
Example fresh_processor :
  let '(r, w) := WASLProcessor_init "data/wasl_processed" ∅ ∅ no_tools in
  r = Ok tt /\
  metadata_cache w = PDict [] /\
  files w =
    {[ "data" := FDir; "data/wasl_processed" := FDir;
       "data/wasl_processed/videos" := FDir; "data/wasl_processed/poses" := FDir;
       "data/wasl_processed/metadata" := FDir; "data/wasl_processed/raw" := FDir ]}.
Proof. vm_compute. repeat split. Qed.

(** ** Normalisation keeps exactly the valid records *)

Lemma valid_recordb_spec d : valid_recordb d = true <-> valid_record d.
Proof.
  unfold valid_recordb, valid_record.
  rewrite !andb_true_iff, !nonempty_eqb, Qltb_lt. tauto.
Qed.

Lemma normalize_entry_typed d :
  schema_typed d = true ->
  normalize_entry (PDict d) =
    Ok (if valid_recordb d then Some (canonical d) else None).
Proof.
  unfold schema_typed, str_field, num_field, normalize_entry, valid_recordb,
    canonical, rec_str, rec_num, py_get.
  intros H. repeat (apply andb_true_iff in H; destruct H as [H ?]).
  destruct (alist_get "video_id" d) as [[]|]; try discriminate; simpl;
    [destruct (String.eqb _ ""); simpl; [reflexivity|] | reflexivity].
  destruct (alist_get "word" d) as [[]|]; try discriminate; simpl;
    [destruct (String.eqb _ ""); simpl|];
    destruct (alist_get "start_time" d) as [[]|]; try discriminate;
    destruct (alist_get "end_time" d) as [[]|]; try discriminate;
    simpl; try reflexivity;
    match goal with |- context [Qltb ?a ?b] => destruct (Qltb a b) end;
    reflexivity.
Qed.

Lemma normalize_loop_typed records acc :
  Forall (fun d => schema_typed d = true) records ->
  normalize_loop (map PDict records) acc =
    Ok (acc ++ map canonical (List.filter valid_recordb records))%list.
Proof.
  intros H. revert acc. induction H as [|d records Hd _ IH]; intros acc.
  - simpl. now rewrite app_nil_r.
  - cbn [map normalize_loop List.filter].
    rewrite (normalize_entry_typed d Hd).
    destruct (valid_recordb d); rewrite IH; [|reflexivity].
    cbn [map]. now rewrite <- app_assoc.
Qed.

Lemma normalize_typed records :
  Forall (fun d => schema_typed d = true) records ->
  normalize (PList (map PDict records)) =
    Ok (map canonical (List.filter valid_recordb records)).
Proof.
  intros H. unfold normalize. cbn [py_iter].
  now rewrite (normalize_loop_typed records [] H).
Qed.






(** ** The timestamp index *)

Lemma cache_miss w vid :
  cache_ok w -> py_contains (metadata_cache w) (PStr vid) = Ok false.
Proof.
  intros [-> | [ds ->]]; [reflexivity|].
  cbn [py_contains]. f_equal.
  induction ds as [|d ds IH]; [reflexivity|]. exact IH.
Qed.

Lemma video_entries_of_canonical vid entries :
  video_entries_of vid (map entry_py entries) =
    Ok (map entry_py
          (List.filter (fun e => String.eqb (video_id e) vid) entries)).
Proof.
  induction entries as [|e entries IH]; [reflexivity|].
  cbn [map video_entries_of List.filter]. rewrite IH.
  change (py_getitem (entry_py e) "video_id") with (@Ok pyval (PStr (video_id e))).
  cbn [py_eqb]. now destruct (String.eqb (video_id e) vid).
Qed.

Lemma timestamps_loop_canonical entries acc :
  timestamps_loop (map entry_py entries) acc = Ok (fold_left bind_entry entries acc).
Proof.
  revert acc. induction entries as [|e entries IH]; intros acc; [reflexivity|].
  cbn [map timestamps_loop fold_left].
  change (py_getitem (entry_py e) "word") with (@Ok pyval (PStr (word e))).
  change (py_getitem (entry_py e) "start_time")
    with (@Ok pyval (PNum (start_time e))).
  change (py_getitem (entry_py e) "end_time") with (@Ok pyval (PNum (end_time e))).
  cbn [py_setitem hashable]. apply IH.
Qed.

Lemma py_eqb_str v s : py_eqb v (PStr s) = true <-> v = PStr s.
Proof.
  split.
  - destruct v as [|[]| | | |]; cbn; try discriminate.
    intros H. apply String.eqb_eq in H. now subst.
  - intros ->. cbn. apply String.eqb_refl.
Qed.

Lemma dict_lookup_set_str {V : Type} (k wd : string) (v : V) d :
  dict_lookup (PStr wd) (dict_set (PStr k) v d) =
    if String.eqb k wd then Some v else dict_lookup (PStr wd) d.
Proof.
  induction d as [|[k' v'] d IH]; cbn [dict_set dict_lookup].
  - cbn [py_eqb]. reflexivity.
  - destruct (py_eqb k' (PStr k)) eqn:E; cbn [dict_lookup].
    + apply py_eqb_str in E. subst k'. cbn [py_eqb].
      destruct (String.eqb k wd); reflexivity.
    + rewrite IH. destruct (py_eqb k' (PStr wd)) eqn:E'; [|reflexivity].
      apply py_eqb_str in E'. subst k'. cbn [py_eqb] in E.
      rewrite String.eqb_sym in E. now rewrite E.
Qed.

Lemma dict_set_keys {V : Type} (k0 k : pyval) (v0 v : V) d :
  In (k, v) (dict_set k0 v0 d) -> k = k0 \/ exists v', In (k, v') d.
Proof.
  induction d as [|[k' v'] d IH]; cbn [dict_set].
  - intros [E | []]. left. congruence.
  - destruct (py_eqb k' k0).
    + intros [E | H].
      * right. exists v'. left. congruence.
      * right. exists v. now right.
    + intros [E | H].
      * right. exists v'. left. congruence.
      * destruct (IH H) as [-> | [v'' H']]; [now left|].
        right. exists v''. now right.
Qed.

Lemma fold_bind_lookup_other entries acc wd :
  Forall (fun e => word e <> wd) entries ->
  dict_lookup (PStr wd) (fold_left bind_entry entries acc) =
    dict_lookup (PStr wd) acc.
Proof.
  intros H. revert acc. induction H as [|e entries He _ IH]; intros acc.
  - reflexivity.
  - cbn [fold_left]. rewrite IH. unfold bind_entry.
    rewrite dict_lookup_set_str.
    destruct (String.eqb_spec (word e) wd); congruence.
Qed.

Lemma fold_bind_keys entries acc k v :
  In (k, v) (fold_left bind_entry entries acc) ->
  (exists v', In (k, v') acc) \/ exists e, In e entries /\ k = PStr (word e).
Proof.
  revert acc. induction entries as [|e entries IH]; intros acc; cbn [fold_left].
  - intros H. left. now exists v.
  - intros H. destruct (IH _ H) as [[v' H'] | (e' & He' & ->)].
    + unfold bind_entry in H'. apply dict_set_keys in H' as [-> | H'].
      * right. exists e. split; [now left | reflexivity].
      * now left.
    + right. exists e'. split; [now right | reflexivity].
Qed.

(** What [_get_word_timestamps] does on a fresh or loaded cache when the
    metadata artifact is canonical: it reads the artifact and folds the
    entries of the video into a dict. *)
Lemma get_word_timestamps_canonical w vid entries :
  cache_ok w ->
  files w !! metadata_path w = Some (FJson (PList (map entry_py entries))) ->
  let matches := List.filter (fun e => String.eqb (video_id e) vid) entries in
  let w1 := with_cache (PList (map entry_py entries))
              (with_trace (EvRead (metadata_path w) :: trace w) w) in
  _get_word_timestamps vid w =
    (Ok (fold_left bind_entry matches []),
     match matches with
     | [] => with_trace (EvLog WARNING ("No metadata found for video " +:+ vid)
                           None :: trace w1) w1
     | _ => w1
     end).
Proof.
  intros Hc Hf. unfold metadata_path in *. unfold _get_word_timestamps. run.
  rewrite (cache_miss w vid Hc). cbn. rewrite Hf. cbn. rewrite Hf. cbn.
  rewrite video_entries_of_canonical. cbn.
  destruct (List.filter _ entries) as [|e es] eqn:E; [reflexivity|].
  cbn [map]. rewrite <- (map_cons entry_py e es).
  rewrite timestamps_loop_canonical. reflexivity.
Qed.

Lemma filter_video_app vid (l1 l2 : list MetadataEntry) e :
  video_id e = vid ->
  List.filter (fun e => String.eqb (video_id e) vid) (l1 ++ e :: l2) =
    (List.filter (fun e => String.eqb (video_id e) vid) l1 ++
     e :: List.filter (fun e => String.eqb (video_id e) vid) l2)%list.
Proof.
  intros <-. rewrite List.filter_app. cbn [List.filter].
  now rewrite String.eqb_refl.
Qed.

(** C6. On a canonical metadata artifact, the mapping returned for a
    video binds each word to the interval of the last entry of that video
    with that word, in stored order, and every key of the mapping is the
    word of an entry of that video. *)
Theorem last_write_wins (w : World) (vid : string) (entries : list MetadataEntry) :
  cache_ok w ->
  files w !! metadata_path w = Some (FJson (PList (map entry_py entries))) ->
  exists d w',
    _get_word_timestamps vid w = (Ok d, w') /\
    (forall l1 e l2,
       entries = (l1 ++ e :: l2)%list -> video_id e = vid ->
       Forall (fun e' => same_video_word vid (word e) e' = false) l2 ->
       dict_lookup (PStr (word e)) d =
         Some (PNum (start_time e), PNum (end_time e))) /\
    (forall k v,
       In (k, v) d ->
       exists e, In e entries /\ video_id e = vid /\ k = PStr (word e)).
Proof.
  intros Hc Hf. eexists _, _. split; [|split].
  - apply (get_word_timestamps_canonical w vid entries Hc Hf).
  - intros l1 e l2 -> Hv Hlast.
    rewrite (filter_video_app vid l1 l2 e Hv), fold_left_app.
    cbn [fold_left]. rewrite fold_bind_lookup_other.
    + unfold bind_entry at 1. rewrite dict_lookup_set_str.
      now rewrite String.eqb_refl.
    + apply List.Forall_forall. intros e' He'.
      apply filter_In in He' as [Hin Hvid].
      rewrite List.Forall_forall in Hlast. specialize (Hlast e' Hin).
      unfold same_video_word in Hlast. rewrite Hvid in Hlast.
      cbn in Hlast. intros E. rewrite E, String.eqb_refl in Hlast.
      discriminate.
  - intros k v Hin. apply fold_bind_keys in Hin as [[v' []] | (e & He & ->)].
    apply filter_In in He as [He Hv]. apply String.eqb_eq in Hv.
    now exists e.
Qed.

Lemma last_write_wins_witness :
  exists d w',
    _get_word_timestamps "v1" metadata_world = (Ok d, w') /\
    (forall l1 e l2,
       [hi_0_1; hi_5_6; dog_1_3] = (l1 ++ e :: l2)%list -> video_id e = "v1" ->
       Forall (fun e' => same_video_word "v1" (word e) e' = false) l2 ->
       dict_lookup (PStr (word e)) d =
         Some (PNum (start_time e), PNum (end_time e))) /\
    (forall k v,
       In (k, v) d ->
       exists e, In e [hi_0_1; hi_5_6; dog_1_3] /\ video_id e = "v1" /\
                 k = PStr (word e)).
Proof.
  apply (last_write_wins metadata_world "v1" [hi_0_1; hi_5_6; dog_1_3]).
  - left. reflexivity.
  - reflexivity.
Defined.

(** The example of the specification: two entries for "hi", the later
    interval is the one kept, and "dog" of the other video is not there. *)
Example timestamps_v1 :
  fst (_get_word_timestamps "v1" metadata_world) =
    Ok [(PStr "hi", (PNum 5, PNum 6))].
Proof. reflexivity. Qed.

(** ** The cache never hits *)

(** After a load the cache is the array of entries; a video id is a string
    and never equals one of them, so every call finds the cache missing
    the id and reads the artifact again. *)
Lemma get_word_timestamps_reads w vid entries :
  cache_ok w ->
  files w !! metadata_path w = Some (FJson (PList (map entry_py entries))) ->
  let w' := snd (_get_word_timestamps vid w) in
  reads (metadata_path w) w' = S (reads (metadata_path w) w) /\
  cache_ok w' /\ files w' = files w /\ metadata_path w' = metadata_path w.
Proof.
  intros Hc Hf. cbv zeta.
  rewrite (get_word_timestamps_canonical w vid entries Hc Hf). cbn [snd].
  assert (Hok : exists ds, PList (map entry_py entries) = PList (map PDict ds)).
  { exists (map (fun e => [("video_id", PStr (video_id e)); ("word", PStr (word e));
                           ("start_time", PNum (start_time e));
                           ("end_time", PNum (end_time e))]) entries).
    now rewrite map_map. }
  destruct (List.filter _ entries); unfold reads, cache_ok; cbn;
    rewrite String.eqb_refl; cbn; auto.
Qed.

(** C2 (what the code does). Two calls for the same video on a fresh
    processor open the metadata artifact twice; and when the artifact
    disappears after a successful first call, the second call raises
    [FileNotFoundError]. *)
Theorem cache_reloaded_every_call :
  reads (metadata_path metadata_world)
    (snd ((_get_word_timestamps "v1" ;;; _get_word_timestamps "v1")
            metadata_world)) = 2 /\
  fst (_get_word_timestamps "v1"
         (with_files ∅ (snd (_get_word_timestamps "v1" metadata_world)))) =
    Raise (FileNotFoundError "WASL metadata file not found").
Proof. split; reflexivity. Qed.

(** ** Video acquisition *)

Lemma video_file_with_trace t w v : video_file (with_trace t w) v = video_file w v.
Proof. reflexivity. Qed.

(** One iteration of the download loop, by cases on the presence of
    [<video_id>.mp4] and on the outcome of yt-dlp. *)
Lemma download_entry_cases w entry vid bound :
  py_getitem entry "video_id" = Ok vid ->
  let url := watch_url w vid in
  match files w !! video_file w vid with
  | Some _ => download_entry entry bound w = (Ok (Some vid), w)
  | None =>
      exists r w',
        download_entry entry bound w = (r, w') /\
        fetches url w' = S (fetches url w) /\
        output_dir w' = output_dir w /\ ext w' = ext w
  end.
Proof.
  intros H. cbv zeta.
  unfold download_entry, try_except, download_try, video_id_after. rewrite H.
  destruct (files w !! video_file w vid) eqn:F; [reflexivity|].
  unfold ydl_download_call.
  destruct (ydl_download (ext w) (trace w) (watch_url w vid)) as [created [e|]].
  - destruct (is_Exception e); eexists _, _;
      (split; [reflexivity|]); unfold fetches; run;
      rewrite String.eqb_refl; cbn; auto.
  - eexists _, _. split; [reflexivity|]. unfold fetches; run.
    rewrite String.eqb_refl. cbn. auto.
Qed.

(** C9. For an entry with a [video_id], one iteration of the batch
    download invokes the fetch of
    [https://www.youtube.com/watch?v=<video_id>] exactly when the file
    [<output_dir>/videos/<video_id>.mp4] is missing; in particular the
    fetch is invoked when the video is on disk under any other extension
    only. *)
Theorem fetch_iff_mp4_missing (w : World) (entry vid : pyval) (bound : option pyval) :
  py_getitem entry "video_id" = Ok vid ->
  let w' := snd (download_entry entry bound w) in
  let url := "https://www.youtube.com/watch?v=" +:+ format_value w vid in
  let mp4 := output_dir w // "videos" // (format_value w vid +:+ ".mp4") in
  fetches url w' =
    fetches url w + (match files w !! mp4 with Some _ => 0 | None => 1 end)
  /\ (forall other,
        other <> "mp4" ->
        is_Some (files w !!
                   (output_dir w // "videos" //
                      (format_value w vid +:+ "." +:+ other))) ->
        files w !! mp4 = None ->
        fetches url w' = S (fetches url w)).
Proof.
  intros H. cbv zeta.
  pose proof (download_entry_cases w entry vid bound H) as C. cbv zeta in C.
  change (output_dir w // "videos" // (format_value w vid +:+ ".mp4"))
    with (video_file w vid).
  change ("https://www.youtube.com/watch?v=" +:+ format_value w vid)
    with (watch_url w vid).
  destruct (files w !! video_file w vid) eqn:F.
  - rewrite C. cbn [snd]. split; [lia|]. intros _ _ _ D. discriminate D.
  - destruct C as (r & w' & -> & Hf & _). cbn [snd].
    split; [lia|]. intros; assumption.
Qed.

Lemma fetch_iff_mp4_missing_witness :
  let url := "https://www.youtube.com/watch?v=v1" in
  (files webm_world !! "data/wasl_processed/videos/v1.mp4" = None /\
   is_Some (files webm_world !! "data/wasl_processed/videos/v1.webm") /\
   fetches url (snd (download_entry (entry_py hi_0_1) None webm_world)) =
     S (fetches url webm_world)) /\
  (is_Some (files (video_world no_tools) !! "data/wasl_processed/videos/v1.mp4") /\
   fetches url (snd (download_entry (entry_py hi_0_1) None (video_world no_tools))) =
     fetches url (video_world no_tools) + 0).
Proof.
  cbv zeta. split.
  - split; [reflexivity|]. split; [eexists; reflexivity|].
    apply (proj2 (fetch_iff_mp4_missing webm_world (entry_py hi_0_1) (PStr "v1")
                    None eq_refl) "webm");
      [discriminate | eexists; reflexivity | reflexivity].
  - split; [eexists; reflexivity|].
    exact (proj1 (fetch_iff_mp4_missing (video_world no_tools) (entry_py hi_0_1)
                    (PStr "v1") None eq_refl)).
Defined.

(** The video saved as [v1.webm] is fetched again. *)
Example webm_refetched :
  is_Some (files webm_world !! "data/wasl_processed/videos/v1.webm") /\
  fetches "https://www.youtube.com/watch?v=v1"
    (snd (download_entry (entry_py hi_0_1) None webm_world)) = 1.
Proof. split; [eexists|]; reflexivity. Qed.

(** C8. Acquisition is idempotent: when [<video_id>.mp4] is at its
    expected location, acquiring the video performs no fetch and changes
    nothing; and when it is there after a first acquisition, a second
    acquisition fetches nothing, so that both together invoke the fetch at
    most once. *)
Theorem acquisition_idempotent (w : World) (entry vid : pyval)
  (bound bound' : option pyval) :
  py_getitem entry "video_id" = Ok vid ->
  let url := watch_url w vid in
  let w1 := snd (download_entry entry bound w) in
  let w2 := snd (download_entry entry bound' w1) in
  (is_Some (files w !! video_file w vid) ->
   download_entry entry bound w = (Ok (Some vid), w)) /\
  (is_Some (files w1 !! video_file w vid) ->
   w2 = w1 /\ fetches url w2 <= 1 + fetches url w).
Proof.
  intros H. cbv zeta.
  pose proof (download_entry_cases w entry vid bound H) as C. cbv zeta in C.
  split.
  - intros [f F]. now rewrite F in C.
  - intros [f F1].
    assert (E : video_file (snd (download_entry entry bound w)) vid = video_file w vid
                /\ fetches (watch_url w vid) (snd (download_entry entry bound w))
                   <= 1 + fetches (watch_url w vid) w).
    { destruct (files w !! video_file w vid).
      - rewrite C. cbn [snd]. split; [reflexivity | lia].
      - destruct C as (r & w' & -> & Hf & Ho & He). cbn [snd].
        split; [|lia]. unfold video_file, videos_dir, format_value.
        now rewrite Ho, He. }
    destruct E as [Ev Ef].
    pose proof (download_entry_cases (snd (download_entry entry bound w))
                  entry vid bound' H) as C1.
    cbv zeta in C1. rewrite Ev, F1 in C1. rewrite C1. cbn [snd].
    split; [reflexivity | exact Ef].
Qed.

Lemma acquisition_idempotent_witness :
  let w := world_of ∅ mp4_tools in
  let url := watch_url w (PStr "v1") in
  let w1 := snd (download_entry (entry_py hi_0_1) None w) in
  let w2 := snd (download_entry (entry_py hi_0_1) (Some (PStr "v1")) w1) in
  download_entry (entry_py hi_0_1) (Some (PStr "v1")) w1 = (Ok (Some (PStr "v1")), w1) /\
  w2 = w1 /\ fetches url w2 <= 1 + fetches url w.
Proof.
  cbv zeta. split.
  - apply (acquisition_idempotent
             (snd (download_entry (entry_py hi_0_1) None (world_of ∅ mp4_tools)))
             (entry_py hi_0_1) (PStr "v1") (Some (PStr "v1")) None eq_refl).
    eexists. reflexivity.
  - apply (acquisition_idempotent (world_of ∅ mp4_tools) (entry_py hi_0_1)
             (PStr "v1") None (Some (PStr "v1")) eq_refl).
    eexists. reflexivity.
Defined.

(** The first acquisition fetches and leaves [v1.mp4]; the second one
    fetches nothing. *)
Example acquired_once :
  let w1 := snd (download_entry (entry_py hi_0_1) None (world_of ∅ mp4_tools)) in
  is_Some (files w1 !! "data/wasl_processed/videos/v1.mp4") /\
  fetches "https://www.youtube.com/watch?v=v1"
    (snd (download_entry (entry_py hi_0_1) (Some (PStr "v1")) w1)) = 1.
Proof. split; [eexists|]; reflexivity. Qed.

(** ** Pose extraction *)

(** C10. [process_with_openpose] isolates the non-zero exit only: when
    the process runs and exits with a non-zero status the error is logged
    and the batch goes on with the next clip; when the process cannot be
    launched, the exception of the launch propagates and the batch stops
    there. *)
Theorem openpose_isolation (w : World) (p : Path) (k : pyval)
  (rest : list (pyval * Path)) :
  (forall code created,
     subprocess_run (ext w) (trace w) (openpose_cmd w p) = Ok (code, created) ->
     code <> 0%Z ->
     exists w',
       process_with_openpose p w = (Ok tt, w') /\
       In (EvLog ERROR ("Error processing " +:+ path_str p +:+ " with OpenPose")
             (Some CalledProcessError)) (trace w') /\
       openpose_loop ((k, p) :: rest) w = openpose_loop rest w') /\
  (forall e,
     subprocess_run (ext w) (trace w) (openpose_cmd w p) = Raise e ->
     is_CalledProcessError e = false ->
     exists w',
       process_with_openpose p w = (Raise e, w') /\
       trace w' = EvRun (openpose_cmd w p) :: trace w /\
       openpose_loop ((k, p) :: rest) w = (Raise e, w')).
Proof.
  split.
  - intros code created Hrun Hcode. apply Z.eqb_neq in Hcode.
    eexists. cbn [openpose_loop].
    unfold process_with_openpose, subprocess_run_checked. run.
    rewrite Hrun, Hcode. cbn.
    split; [reflexivity|]. split; [now left | reflexivity].
  - intros e Hrun He. eexists. cbn [openpose_loop].
    unfold process_with_openpose, subprocess_run_checked. run.
    rewrite Hrun. cbn. rewrite He.
    split; [reflexivity|]. split; reflexivity.
Qed.

Lemma openpose_isolation_witness :
  (exists w',
     process_with_openpose clip_hi (clips_world crash_tools) = (Ok tt, w') /\
     In (EvLog ERROR ("Error processing " +:+ path_str clip_hi +:+ " with OpenPose")
           (Some CalledProcessError)) (trace w') /\
     openpose_loop [(PStr "hi", clip_hi); (PStr "dog", clip_dog)]
       (clips_world crash_tools) =
     openpose_loop [(PStr "dog", clip_dog)] w') /\
  (exists w',
     process_with_openpose clip_hi (clips_world no_tools) =
       (Raise (FileNotFoundError "openpose.bin"), w') /\
     trace w' = [EvRun (openpose_cmd (clips_world no_tools) clip_hi)] /\
     openpose_loop [(PStr "hi", clip_hi); (PStr "dog", clip_dog)]
       (clips_world no_tools) =
     (Raise (FileNotFoundError "openpose.bin"), w')).
Proof.
  split.
  - apply (proj1 (openpose_isolation (clips_world crash_tools) clip_hi (PStr "hi")
                    [(PStr "dog", clip_dog)]) 1%Z []); [reflexivity | discriminate].
  - apply (proj2 (openpose_isolation (clips_world no_tools) clip_hi (PStr "hi")
                    [(PStr "dog", clip_dog)]) (FileNotFoundError "openpose.bin"));
      reflexivity.
Defined.

(** With the binary missing, the second clip of the batch is never run. *)
Example openpose_batch_aborted :
  let '(r, w') := openpose_loop [(PStr "hi", clip_hi); (PStr "dog", clip_dog)]
                    (clips_world no_tools) in
  r = Raise (FileNotFoundError "openpose.bin") /\ length (trace w') = 1.
Proof. split; reflexivity. Qed.

(** ** Segmentation *)

Lemma split_loop_app p l1 l2 acc w :
  split_loop p (l1 ++ l2) acc w =
    match split_loop p l1 acc w with
    | (Ok acc', w1) => split_loop p l2 acc' w1
    | (Raise e, w1) => (Raise e, w1)
    end.
Proof.
  revert acc w. induction l1 as [|[word [t0 t1]] l1 IH]; intros acc w.
  - reflexivity.
  - cbn [app split_loop]. unfold subclip_call, write_videofile_call. run.
    destruct (video_subclip _ _ _ _ _); [reflexivity|].
    destruct (write_videofile _ _ _); [reflexivity|]. apply IH.
Qed.

(** The loop touches neither the handle nor the configuration, whatever
    its outcome. *)
Lemma split_loop_frame p items acc w :
  let w' := snd (split_loop p items acc w) in
  handles w' = handles w /\ output_dir w' = output_dir w /\ ext w' = ext w.
Proof.
  revert acc w. induction items as [|[word [t0 t1]] items IH]; intros acc w.
  - cbn. auto.
  - cbn [split_loop]. unfold subclip_call, write_videofile_call. run.
    destruct (video_subclip _ _ _ _ _); [cbn; auto|].
    destruct (write_videofile _ _ _); [cbn; auto|].
    match goal with |- context [split_loop p items ?a ?v] =>
      specialize (IH a v) end.
    cbn in IH. exact IH.
Qed.

Lemma split_loop_ok p items acc w clips w' :
  split_loop p items acc w = (Ok clips, w') ->
  clips = (acc ++ map (clip_of w p) items)%list /\
  (forall e, In e (trace w) -> In e (trace w')) /\
  (forall word t0 t1,
     In (word, (t0, t1)) items -> In (EvSubclip (path_str p) t0 t1) (trace w')).
Proof.
  revert acc w. induction items as [|[word [t0 t1]] items IH]; intros acc w.
  - cbn. intros [= <- <-]. rewrite app_nil_r. repeat split; auto.
    intros ? ? ? [].
  - cbn [split_loop]. unfold subclip_call, write_videofile_call. run.
    destruct (video_subclip _ _ _ _ _); [discriminate|].
    destruct (write_videofile _ _ _); [discriminate|].
    intros H. apply IH in H as (-> & Htr & Hat). cbn in Htr.
    split; [|split].
    + cbn [map]. rewrite <- app_assoc. reflexivity.
    + intros e He. apply Htr. now do 2 right.
    + intros word' t0' t1' [[= <- <- <-] | Hin].
      * apply Htr. right. now left.
      * now apply (Hat word').
Qed.

Lemma split_loop_succeeds p items acc w :
  segmentation_succeeds (ext w) ->
  exists w',
    split_loop p items acc w = (Ok (acc ++ map (clip_of w p) items)%list, w') /\
    handles w' = handles w.
Proof.
  intros (Hopen & Hcut & Henc). revert acc w Hopen Hcut Henc.
  induction items as [|[word [t0 t1]] items IH]; intros acc w Hopen Hcut Henc.
  - exists w. cbn. now rewrite app_nil_r.
  - cbn [split_loop]. unfold subclip_call, write_videofile_call. run.
    rewrite Hcut, Henc.
    match goal with |- context [split_loop p items ?a ?v] =>
      destruct (IH a v) as (w' & Hrun & Hh); [exact Hopen | exact Hcut | exact Henc |]
    end.
    exists w'. rewrite Hrun. cbn [map]. rewrite <- app_assoc.
    split; [reflexivity | exact Hh].
Qed.

(** C3, as the code has it. When moviepy fails on nothing,
    [split_video_into_words] returns one clip per word; whenever it
    returns, it returns one clip per word, in mapping order, and every
    word was attempted; when the segmentation of a word fails after the
    words before it succeeded, the exception leaves the function at that
    word, in the state the failed attempt left: the words after it are
    not attempted and no clip is returned. *)
Theorem segment_stops_at_first_failure (w : World) (p : Path) :
  (forall items,
     segmentation_succeeds (ext w) ->
     exists w',
       split_video_into_words p items w = (Ok (map (clip_of w p) items), w') /\
       handles w' = handles w) /\
  (forall items clips w',
     split_video_into_words p items w = (Ok clips, w') ->
     clips = map (clip_of w p) items /\
     forall word t0 t1,
       In (word, (t0, t1)) items -> In (EvSubclip (path_str p) t0 t1) (trace w')) /\
  (forall l1 item l2 w0 clips w1 e w2,
     video_open_call (path_str p) w = (Ok tt, w0) ->
     split_loop p l1 [] w0 = (Ok clips, w1) ->
     split_loop p [item] clips w1 = (Raise e, w2) ->
     split_video_into_words p (l1 ++ item :: l2) w = (Raise e, w2)).
Proof.
  split; [|split].
  - intros items Hs. unfold split_video_into_words, video_open_call. run.
    rewrite (proj1 Hs).
    match goal with |- context [split_loop p items [] ?v] =>
      destruct (split_loop_succeeds p items [] v Hs) as (w1 & Hrun & Hh)
    end.
    rewrite Hrun. unfold video_close_call. eexists. split; [reflexivity|].
    cbn. rewrite Hh. cbn. now rewrite String.eqb_refl.
  - intros items clips w'. unfold split_video_into_words, video_open_call,
      video_close_call. run.
    destruct (video_open _ _ _); [discriminate|].
    destruct (split_loop p items [] _) as [[cl|e] w1] eqn:E; [|discriminate].
    intros [= <- <-]. apply split_loop_ok in E as (-> & _ & Hat).
    split; [reflexivity|]. intros word t0 t1 Hin. cbn. right.
    now apply (Hat word).
  - intros l1 item l2 w0 clips w1 e w2 Hopen Hl1 Hitem.
    unfold split_video_into_words. unfold bind at 1. rewrite Hopen.
    unfold bind at 1.
    change (l1 ++ item :: l2)%list with (l1 ++ ([item] ++ l2))%list.
    rewrite split_loop_app, Hl1, split_loop_app, Hitem. reflexivity.
Qed.

Lemma segment_stops_at_first_failure_witness :
  (exists w',
     split_video_into_words src_video hi_then_dog (video_world no_tools) =
       (Ok (map (clip_of (video_world no_tools) src_video) hi_then_dog), w') /\
     handles w' = handles (video_world no_tools)) /\
  (exists clips w',
     split_video_into_words src_video dog_only (video_world short_tools) =
       (Ok clips, w') /\
     clips = map (clip_of (video_world short_tools) src_video) dog_only) /\
  (exists w2,
     split_video_into_words src_video hi_then_dog (video_world short_tools) =
       (Raise (ExternalError "ValueError: end beyond duration"), w2) /\
     trace w2 = [EvSubclip (path_str src_video) (PNum 0) (PNum 99);
                 EvVideoOpen (path_str src_video)]).
Proof.
  split; [|split].
  - apply (proj1 (segment_stops_at_first_failure (video_world no_tools) src_video)).
    repeat split.
  - eexists _, _. split; [reflexivity|].
    eapply (proj1 (proj2 (segment_stops_at_first_failure
                            (video_world short_tools) src_video))).
    reflexivity.
  - eexists. split.
    + apply (proj2 (proj2 (segment_stops_at_first_failure
                             (video_world short_tools) src_video))
               [] (PStr "hi", (PNum 0, PNum 99)) dog_only
               (snd (video_open_call (path_str src_video)
                       (video_world short_tools)))
               []
               (snd (video_open_call (path_str src_video)
                       (video_world short_tools))));
        reflexivity.
    + reflexivity.
Defined.

(** C3, refuted as stated. The segmentation of "hi" fails; "dog", next in
    the mapping, would succeed but is never attempted, its clip is not
    produced, and the call returns no clip at all. *)
Lemma segment_aborts_counterexample :
  let '(r, w') := split_video_into_words src_video hi_then_dog
                    (video_world short_tools) in
  fst (split_video_into_words src_video dog_only (video_world short_tools)) =
    Ok [(PStr "dog", clip_dog)] /\
  r = Raise (ExternalError "ValueError: end beyond duration") /\
  ~ In (EvSubclip (path_str src_video) (PNum 1) (PNum 3)) (trace w') /\
  files w' !! path_str clip_dog = None.
Proof.
  vm_compute. split; [reflexivity|]. split; [reflexivity|].
  split; [|reflexivity]. intros [H | [H | []]]; discriminate H.
Qed.

(** Whenever the loop raises, the video opened before it stays open: no
    [close] is reached. *)
Lemma split_raise_keeps_handle w p items w0 e w' :
  video_open_call (path_str p) w = (Ok tt, w0) ->
  split_video_into_words p items w = (Raise e, w') ->
  handles w' = path_str p :: handles w.
Proof.
  intros Hopen. unfold split_video_into_words. unfold bind at 1.
  rewrite Hopen. unfold bind at 1.
  pose proof (split_loop_frame p items [] w0) as (Hh & _). cbv zeta in Hh.
  destruct (split_loop p items [] w0) as [[cl|e'] w1]; cbn [snd] in Hh.
  - unfold video_close_call. run. discriminate.
  - intros [= <- <-]. rewrite Hh. revert Hopen.
    unfold video_open_call. destruct (video_open _ _ _); [discriminate|].
    intros [= <-]. reflexivity.
Qed.

(** C4 (what the code does). On the path where the segmentation of a
    word raises, the source video is still open when the call is left and
    [close] was never called; on the normal path it is closed. *)
Theorem handle_leaked_on_failure :
  let '(r, w') := split_video_into_words src_video hi_then_dog
                    (video_world short_tools) in
  r = Raise (ExternalError "ValueError: end beyond duration") /\
  handles w' = [path_str src_video] /\
  ~ In (EvVideoClose (path_str src_video)) (trace w') /\
  handles (snd (split_video_into_words src_video dog_only
                  (video_world short_tools))) = [].
Proof.
  vm_compute. split; [reflexivity|]. split; [reflexivity|].
  split; [|reflexivity]. intros [H | [H | []]]; discriminate H.
Qed.

(** ** The join *)

Lemma only_trace_refl w : only_trace w w.
Proof. unfold only_trace. now destruct w. Qed.

Lemma only_trace_step t w w' : only_trace (with_trace t w) w' -> only_trace w w'.
Proof. unfold only_trace. intros H. rewrite H at 1. reflexivity. Qed.

Lemma only_trace_files w w' : only_trace w w' -> files w' = files w.
Proof. unfold only_trace. intros ->. reflexivity. Qed.

Lemma only_trace_can_write w w' p :
  only_trace w w' -> can_write w' p = can_write w p.
Proof. unfold only_trace. intros ->. reflexivity. Qed.

Lemma only_trace_mapping_path w w' :
  only_trace w w' -> mapping_path w' = mapping_path w.
Proof. unfold only_trace. intros ->. reflexivity. Qed.

Lemma only_trace_dump w w' d : only_trace w w' -> dump_dict w' d = dump_dict w d.
Proof. unfold only_trace. intros ->. reflexivity. Qed.

(** On canonical entries whose pose files, where present, are JSON
    documents, the loop binds the poses in order and only reads. *)
Lemma mapping_loop_canonical entries w mapping :
  Forall (fun e => pose_ok w e = true) entries ->
  exists w',
    mapping_loop (map entry_py entries) mapping w =
      (Ok (fold_left (bind_pose w) entries mapping), w') /\
    only_trace w w'.
Proof.
  intros H. revert w mapping H.
  induction entries as [|e entries IH]; intros w mapping H.
  - exists w. split; [reflexivity | apply only_trace_refl].
  - inversion H as [|? ? He Hrest]; subst. cbn [map mapping_loop fold_left].
    change (py_getitem (entry_py e) "word") with (@Ok pyval (PStr (word e))).
    change (py_getitem (entry_py e) "video_id")
      with (@Ok pyval (PStr (video_id e))).
    unfold pose_ok, entry_pose_path in He. unfold bind_pose at 2.
    unfold entry_pose_path.
    unfold bind at 1, lift at 1. unfold bind at 1, lift at 1.
    unfold bind at 1, self at 1. unfold bind at 1, path_exists at 1.
    destruct (files w !! pose_file w (PStr (video_id e))) as [[| |v]|] eqn:F;
      try discriminate He.
    + unfold bind at 1, read_json at 1. rewrite F.
      unfold bind at 1, lift at 1. cbn [py_setitem hashable].
      destruct (IH (with_trace (EvRead (pose_file w (PStr (video_id e))) :: trace w) w)
                  (dict_set (PStr (word e)) v mapping) Hrest)
        as (w' & Hrun & Hot).
      exists w'. split; [exact Hrun | exact (only_trace_step _ _ _ Hot)].
    + apply (IH w mapping Hrest).
Qed.

(** An entry whose pose file is there but is no JSON document stops the
    loop with the parse error. *)
Lemma mapping_loop_unparseable l1 e l2 w mapping :
  Forall (fun e => pose_ok w e = true) l1 ->
  files w !! entry_pose_path w e = Some FBlob ->
  exists w',
    mapping_loop (map entry_py (l1 ++ e :: l2)) mapping w =
      (Raise JSONDecodeError, w') /\
    only_trace w w'.
Proof.
  intros H Hb. revert w mapping H Hb.
  induction l1 as [|e1 l1 IH]; intros w mapping H Hb.
  - cbn [app map mapping_loop].
    change (py_getitem (entry_py e) "word") with (@Ok pyval (PStr (word e))).
    change (py_getitem (entry_py e) "video_id")
      with (@Ok pyval (PStr (video_id e))).
    unfold entry_pose_path in Hb. run. rewrite Hb. cbn. rewrite Hb.
    eexists. split; [reflexivity|]. reflexivity.
  - inversion H as [|? ? He Hrest]; subst. cbn [app map mapping_loop].
    change (py_getitem (entry_py e1) "word") with (@Ok pyval (PStr (word e1))).
    change (py_getitem (entry_py e1) "video_id")
      with (@Ok pyval (PStr (video_id e1))).
    unfold pose_ok, entry_pose_path in He.
    unfold bind at 1, lift at 1. unfold bind at 1, lift at 1.
    unfold bind at 1, self at 1. unfold bind at 1, path_exists at 1.
    destruct (files w !! pose_file w (PStr (video_id e1))) as [[| |v]|] eqn:F;
      try discriminate He.
    + unfold bind at 1, read_json at 1. rewrite F.
      unfold bind at 1, lift at 1. cbn [py_setitem hashable].
      destruct (IH (with_trace (EvRead (pose_file w (PStr (video_id e1))) :: trace w) w)
                  (dict_set (PStr (word e1)) v mapping) Hrest Hb)
        as (w' & Hrun & Hot).
      exists w'. split; [exact Hrun | exact (only_trace_step _ _ _ Hot)].
    + apply (IH w mapping Hrest Hb).
Qed.

Lemma fold_pose_lookup w wd entries acc :
  dict_lookup (PStr wd) (fold_left (bind_pose w) entries acc) =
    fold_left (pose_step w wd) entries (dict_lookup (PStr wd) acc).
Proof.
  revert acc. induction entries as [|e entries IH]; intros acc; [reflexivity|].
  cbn [fold_left]. rewrite IH. f_equal. unfold bind_pose, pose_step.
  destruct (files w !! entry_pose_path w e) as [[| |v]|];
    try (now destruct (String.eqb (word e) wd)).
  apply dict_lookup_set_str.
Qed.

Lemma fold_pose_none w wd entries acc :
  fold_left (pose_step w wd) entries acc = None <->
  acc = None /\
  forall e, In e entries -> word e = wd ->
            forall v, files w !! entry_pose_path w e <> Some (FJson v).
Proof.
  revert acc. induction entries as [|e entries IH]; intros acc; cbn [fold_left].
  - split; [intros ->; split; [reflexivity | intros ? []] | now intros [-> _]].
  - rewrite IH. unfold pose_step at 1. split.
    + intros [Hacc Hrest]. destruct (String.eqb_spec (word e) wd) as [Ew|Ew].
      * destruct (files w !! entry_pose_path w e) as [[| |v]|] eqn:F;
          try discriminate Hacc; (split; [exact Hacc|]);
          intros e' [<- | Hin] Hw v'; try (now apply Hrest);
          rewrite F; discriminate.
      * split; [exact Hacc|]. intros e' [<- | Hin] Hw v'; [congruence|].
        now apply Hrest.
    + intros [-> Hall]. split.
      * destruct (String.eqb_spec (word e) wd) as [Ew|Ew]; [|reflexivity].
        destruct (files w !! entry_pose_path w e) as [[| |v]|] eqn:F;
          try reflexivity.
        exfalso. apply (Hall e (or_introl eq_refl) Ew v). exact F.
      * intros e' Hin. apply Hall. now right.
Qed.

Lemma dict_set_str_keys {V : Type} k (v : V) d :
  str_keys d -> str_keys (dict_set (PStr k) v d).
Proof.
  unfold str_keys. induction 1 as [|[k' v'] d Hk Hd IH]; cbn [dict_set].
  - constructor; [now exists k | constructor].
  - destruct (py_eqb k' (PStr k)); constructor; auto.
Qed.

Lemma fold_pose_str_keys w entries acc :
  str_keys acc -> str_keys (fold_left (bind_pose w) entries acc).
Proof.
  revert acc. induction entries as [|e entries IH]; intros acc H; [exact H|].
  cbn [fold_left]. apply IH. unfold bind_pose.
  destruct (files w !! entry_pose_path w e) as [[| |v]|]; auto.
  now apply dict_set_str_keys.
Qed.

(** The dumped object answers a word as the dict does. *)
Lemma dump_lookup w wd d :
  str_keys d ->
  match dump_dict w d with
  | PDict m => alist_get wd m = dict_lookup (PStr wd) d
  | _ => False
  end.
Proof.
  unfold dump_dict, str_keys. induction 1 as [|[k v] d [s Hk] Hd IH].
  - reflexivity.
  - cbn in Hk. subst k. cbn [map fst snd alist_get dict_lookup py_eqb].
    rewrite String.eqb_sym. destruct (String.eqb s wd); [reflexivity | exact IH].
Qed.

(** The join on canonical entries whose pose files are JSON documents. *)
Lemma create_word_pose_mapping_canonical w entries :
  Forall (fun e => pose_ok w e = true) entries ->
  exists w1,
    only_trace w w1 /\
    create_word_pose_mapping (PList (map entry_py entries)) w =
      if can_write w (mapping_path w)
      then (Ok tt,
            with_files (<[mapping_path w :=
                            FJson (dump_dict w (fold_left (bind_pose w) entries []))]>
                          (files w))
              (with_trace (EvWrite (mapping_path w) :: trace w1) w1))
      else (Raise OSError, w1).
Proof.
  intros H. destruct (mapping_loop_canonical entries w [] H) as (w1 & Hrun & Hot).
  exists w1. split; [exact Hot|].
  unfold create_word_pose_mapping. unfold bind at 1, lift at 1. cbn [py_iter].
  unfold bind at 1. rewrite Hrun. unfold bind at 1, self at 1.
  unfold write_json.
  rewrite (only_trace_mapping_path w w1 Hot), (only_trace_can_write w w1 _ Hot),
    (only_trace_dump w w1 _ Hot), (only_trace_files w w1 Hot).
  reflexivity.
Qed.

(** C5, as the code has it. On canonical metadata, the join fails when
    the destination cannot be written and also when a pose file that is
    there does not parse: when every pose file that is there is a JSON
    document, the join fails exactly when the destination cannot be
    written; and the first pose file that is there but holds no JSON makes
    the join raise the parse error, with nothing written. *)
Theorem join_failures (w : World) (entries : list MetadataEntry) :
  (Forall (fun e => pose_ok w e = true) entries ->
   exists w',
     create_word_pose_mapping (PList (map entry_py entries)) w =
       (if can_write w (mapping_path w) then Ok tt else Raise OSError, w') /\
     (can_write w (mapping_path w) = false -> files w' = files w)) /\
  (forall l1 e l2,
     entries = (l1 ++ e :: l2)%list ->
     Forall (fun e => pose_ok w e = true) l1 ->
     files w !! entry_pose_path w e = Some FBlob ->
     exists w',
       create_word_pose_mapping (PList (map entry_py entries)) w =
         (Raise JSONDecodeError, w') /\
       files w' = files w).
Proof.
  split.
  - intros H.
    destruct (create_word_pose_mapping_canonical w entries H) as (w1 & Hot & ->).
    destruct (can_write w (mapping_path w)); eexists; (split; [reflexivity|]).
    + discriminate.
    + intros _. now apply only_trace_files.
  - intros l1 e l2 -> H Hb.
    destruct (mapping_loop_unparseable l1 e l2 w [] H Hb) as (w' & Hrun & Hot).
    exists w'. split; [|now apply only_trace_files].
    unfold create_word_pose_mapping. unfold bind at 1, lift at 1. cbn [py_iter].
    unfold bind at 1. now rewrite Hrun.
Qed.

Lemma join_failures_witness :
  (exists w',
     create_word_pose_mapping (PList (map entry_py [hi_0_1; hi_v2])) pose_world =
       (Ok tt, w')) /\
  (exists w',
     create_word_pose_mapping (PList (map entry_py [hi_v2; hi_0_1])) garbled_world =
       (Raise JSONDecodeError, w') /\
     files w' = files garbled_world).
Proof.
  split.
  - destruct (proj1 (join_failures pose_world [hi_0_1; hi_v2])) as (w' & H & _).
    + repeat constructor.
    + exists w'. exact H.
  - apply (proj2 (join_failures garbled_world [hi_v2; hi_0_1]) [hi_v2] hi_0_1 []).
    + reflexivity.
    + repeat constructor.
    + reflexivity.
Defined.

(** C5, refuted as stated. The destination can be written, yet the join
    fails on the unparseable pose file of v1: the parse error is raised,
    no warning is logged and no mapping is written. *)
Lemma join_unparseable_counterexample :
  let '(r, w') := create_word_pose_mapping (PList [entry_py hi_0_1]) garbled_world in
  can_write garbled_world (mapping_path garbled_world) = true /\
  r = Raise JSONDecodeError /\
  existsb is_log (trace w') = false /\
  files w' !! mapping_path garbled_world = None.
Proof. vm_compute. repeat split. Qed.

(** C7, as the code has it. On canonical metadata whose pose files are
    JSON documents and with a writable destination, the join succeeds and
    the mapping it writes binds a word to the pose data of the last entry
    with that word whose pose file is there. An entry whose pose file is
    missing binds nothing and raises nothing: its word is absent from the
    mapping exactly when no entry with that word has a pose file. *)
Theorem join_omits_missing_pose (w : World) (entries : list MetadataEntry) :
  Forall (fun e => pose_ok w e = true) entries ->
  can_write w (mapping_path w) = true ->
  exists w' m,
    create_word_pose_mapping (PList (map entry_py entries)) w = (Ok tt, w') /\
    files w' !! mapping_path w = Some (FJson (PDict m)) /\
    (forall wd, alist_get wd m = last_pose w entries wd) /\
    (forall e,
       In e entries -> files w !! entry_pose_path w e = None ->
       (alist_get (word e) m = None <->
        forall e', In e' entries -> word e' = word e ->
                   files w !! entry_pose_path w e' = None)).
Proof.
  intros H Hw.
  destruct (create_word_pose_mapping_canonical w entries H) as (w1 & Hot & Hrun).
  rewrite Hw in Hrun.
  pose proof (dump_lookup w) as Hd.
  assert (Hk : str_keys (fold_left (bind_pose w) entries ([] : list (pyval * pyval))))
    by (apply fold_pose_str_keys; constructor).
  destruct (dump_dict w (fold_left (bind_pose w) entries [])) as [| | | | |m] eqn:D;
    try (now specialize (Hd "" _ Hk); rewrite D in Hd).
  assert (Hm : forall wd, alist_get wd m = last_pose w entries wd).
  { intros wd. specialize (Hd wd _ Hk). rewrite D in Hd. rewrite Hd.
    unfold last_pose. now rewrite fold_pose_lookup. }
  eexists _, m. split; [exact Hrun|]. split; [|split].
  - cbn. apply lookup_insert_eq.
  - exact Hm.
  - intros e Hin Hnone. rewrite Hm. unfold last_pose. rewrite fold_pose_none.
    rewrite List.Forall_forall in H. split.
    + intros [_ Hall] e' Hin' Hw'. specialize (H e' Hin').
      unfold pose_ok in H.
      destruct (files w !! entry_pose_path w e') as [[| |v]|] eqn:F;
        try discriminate H; [|reflexivity].
      exfalso. exact (Hall e' Hin' Hw' v F).
    + intros Hall. split; [reflexivity|]. intros e' Hin' Hw' v.
      rewrite (Hall e' Hin' Hw'). discriminate.
Qed.

Lemma join_omits_missing_pose_witness :
  exists w' m,
    create_word_pose_mapping (PList (map entry_py [hi_0_1; dog_1_3])) pose_world =
      (Ok tt, w') /\
    files w' !! mapping_path pose_world = Some (FJson (PDict m)) /\
    (forall wd, alist_get wd m = last_pose pose_world [hi_0_1; dog_1_3] wd) /\
    (forall e,
       In e [hi_0_1; dog_1_3] -> files pose_world !! entry_pose_path pose_world e = None ->
       (alist_get (word e) m = None <->
        forall e', In e' [hi_0_1; dog_1_3] -> word e' = word e ->
                   files pose_world !! entry_pose_path pose_world e' = None)).
Proof.
  apply (join_omits_missing_pose pose_world [hi_0_1; dog_1_3]).
  - repeat constructor.
  - reflexivity.
Defined.

(** C7, refuted as stated. The pose file of the entry (v2, "hi") does
    not exist, yet its word is in the mapping the join writes: it was
    bound by the entry (v1, "hi"), whose pose file is there. *)
Lemma join_shared_word_counterexample :
  In hi_v2 [hi_0_1; hi_v2] /\
  files pose_world !! entry_pose_path pose_world hi_v2 = None /\
  files (snd (create_word_pose_mapping (PList (map entry_py [hi_0_1; hi_v2]))
                pose_world))
    !! mapping_path pose_world =
  Some (FJson (PDict [(word hi_v2, pose_json)])).
Proof. split; [right; left; reflexivity|]. split; reflexivity. Qed.

(** ** The download loop of [get_WLASL.py] *)

(** The same test guards the raw downloads: a sample whose file is at
    [data/raw_videos/<gloss>_<instance_id>.mp4] is skipped without any
    fetch. *)
Lemma get_sample_present w s :
  is_Some (files w !! raw_video_path w s) -> get_sample s w = (Ok tt, w).
Proof.
  intros [f F]. unfold get_sample. run. now rewrite F.
Qed.

Lemma get_sample_fetches w s :
  fetches (video s) (snd (get_sample s w)) =
    fetches (video s) w +
      match files w !! raw_video_path w s with Some _ => 0 | None => 1 end.
Proof.
  unfold get_sample, urlretrieve_call, fetches. run.
  destruct (files w !! raw_video_path w s); cbn; [lia|].
  destruct (urlretrieve _ _ _ _) as [created [e|]]; cbn;
    [destruct (is_Exception e); cbn|]; rewrite String.eqb_refl; cbn; lia.
Qed.

(** * Further properties of the code *)

(** ** Normalisation: errors and edge cases *)

Lemma normalize_loop_app l1 l2 acc :
  normalize_loop (l1 ++ l2) acc =
    match normalize_loop l1 acc with
    | Ok m => normalize_loop l2 m
    | Raise e => Raise e
    end.
Proof.
  revert acc. induction l1 as [|x l1 IH]; intros acc; [reflexivity|].
  cbn [app normalize_loop]. destruct (normalize_entry x); [apply IH | reflexivity].
Qed.

(** X1. A missing input stops [_process_WASL_structure] before anything
    is written: without the extracted directory, or with the directory but
    without the annotations file, it raises [FileNotFoundError] and the
    file system, a metadata artifact of an earlier run included, is left
    as it was. *)
Theorem normalization_missing_input (w : World) :
  (files w !! wasl_dir w = None ->
   exists w',
     _process_WASL_structure w =
       (Raise (FileNotFoundError "WASL directory not found in extracted files"), w')
     /\ files w' = files w) /\
  (is_Some (files w !! wasl_dir w) ->
   files w !! annotations_path w = None ->
   exists w',
     _process_WASL_structure w =
       (Raise (FileNotFoundError "WASL annotations file not found"), w')
     /\ files w' = files w).
Proof.
  unfold annotations_path, wasl_dir. split.
  - intros H. unfold _process_WASL_structure. run. rewrite H. cbn.
    eexists. split; reflexivity.
  - intros [f H] Ha. unfold _process_WASL_structure. run. rewrite H. cbn.
    rewrite Ha. cbn. eexists. split; reflexivity.
Qed.

Lemma normalization_missing_input_witness :
  (exists w',
     _process_WASL_structure metadata_world =
       (Raise (FileNotFoundError "WASL directory not found in extracted files"), w')
     /\ files w' = files metadata_world) /\
  (exists w',
     _process_WASL_structure no_annotations_world =
       (Raise (FileNotFoundError "WASL annotations file not found"), w')
     /\ files w' = files no_annotations_world).
Proof.
  split.
  - apply (proj1 (normalization_missing_input metadata_world)). reflexivity.
  - apply (proj2 (normalization_missing_input no_annotations_world)).
    + eexists. reflexivity.
    + reflexivity.
Defined.

Lemma normalize_entry_falsy d :
  truthy (field_or d "video_id" PNone) = false \/
  truthy (field_or d "word" (PStr "")) = false ->
  normalize_entry (PDict d) = Ok None.
Proof.
  unfold normalize_entry, py_get, field_or.
  destruct (truthy (match alist_get "video_id" d with Some v => v | None => PNone end));
    [|reflexivity].
  intros [H | H]; [discriminate|]. cbn. now rewrite H.
Qed.

(** X2. A record whose [video_id] or [word] is missing, null or empty is
    dropped before its times are looked at: whatever its other fields
    hold, it raises nothing and the output is the one of the annotations
    without it. *)
Theorem falsy_record_skipped (l1 l2 : list pyval) (d : list (string * pyval)) :
  truthy (field_or d "video_id" PNone) = false \/
  truthy (field_or d "word" (PStr "")) = false ->
  normalize (PList (l1 ++ PDict d :: l2)) = normalize (PList (l1 ++ l2)).
Proof.
  intros H. unfold normalize. cbn [py_iter].
  rewrite !normalize_loop_app. destruct (normalize_loop l1 []); [|reflexivity].
  cbn [normalize_loop]. now rewrite (normalize_entry_falsy d H).
Qed.

Lemma falsy_record_skipped_witness :
  normalize (PList ([entry_py hi_0_1] ++
                    PDict [("video_id", PStr "v1"); ("word", PNone);
                           ("start_time", PStr "0:03"); ("end_time", PList [])]
                    :: [entry_py dog_1_3])) =
  normalize (PList ([entry_py hi_0_1] ++ [entry_py dog_1_3])).
Proof.
  apply (falsy_record_skipped [entry_py hi_0_1] [entry_py dog_1_3]).
  right. reflexivity.
Defined.

(** X3. One record with non-empty [video_id] and [word] whose
    [start_time] is a string while its [end_time] is a number (or absent)
    makes the whole stage fail: [_process_WASL_structure] raises
    [TypeError], and no metadata artifact is written, not even for the
    valid records before it. *)
Theorem text_time_aborts_normalization (w : World)
  (l1 l2 : list (list (string * pyval))) (d : list (string * pyval)) (s : string) :
  is_Some (files w !! wasl_dir w) ->
  files w !! annotations_path w =
    Some (FJson (PList (map PDict (l1 ++ d :: l2)))) ->
  Forall (fun d => schema_typed d = true) l1 ->
  rec_str d "video_id" <> "" -> str_field d "video_id" = true ->
  rec_str d "word" <> "" -> str_field d "word" = true ->
  alist_get "start_time" d = Some (PStr s) ->
  num_field d "end_time" = true ->
  exists w',
    _process_WASL_structure w = (Raise TypeError, w') /\ files w' = files w.
Proof.
  intros [dir Hdir] Hann Hty Hv Hvt Hw Hwt Hs He.
  unfold annotations_path, wasl_dir in *.
  assert (Hn : normalize (PList (map PDict (l1 ++ d :: l2))) = Raise TypeError).
  { unfold normalize. cbn [py_iter]. rewrite List.map_app, normalize_loop_app.
    rewrite (normalize_loop_typed l1 [] Hty). cbn [map normalize_loop].
    unfold normalize_entry, py_get. unfold rec_str, str_field, num_field in *.
    rewrite Hs.
    destruct (alist_get "video_id" d) as [[]|]; try discriminate; try congruence.
    apply nonempty_eqb in Hv. cbn [truthy]. rewrite Hv. cbn [negb].
    destruct (alist_get "word" d) as [[]|]; try discriminate; try congruence.
    apply nonempty_eqb in Hw. cbn [truthy]. rewrite Hw.
    destruct (alist_get "end_time" d) as [[]|]; try discriminate; reflexivity. }
  unfold _process_WASL_structure. run.
  rewrite Hdir. cbn. rewrite Hann. cbn. rewrite Hann. cbn. rewrite Hn.
  eexists. split; reflexivity.
Qed.

Lemma text_time_aborts_normalization_witness :
  exists w',
    _process_WASL_structure text_time_world = (Raise TypeError, w') /\
    files w' = files text_time_world.
Proof.
  apply (text_time_aborts_normalization text_time_world
           [ [("video_id", PStr "v1"); ("word", PStr "hello");
              ("start_time", PNum 1); ("end_time", PNum 2)] ]
           [ [("video_id", PStr "v2"); ("word", PStr "dog");
              ("start_time", PNum 1); ("end_time", PNum 3)] ]
           [("video_id", PStr "v1"); ("word", PStr "bye");
            ("start_time", PStr "0:03"); ("end_time", PNum 4)] "0:03");
    try reflexivity; try discriminate.
  - eexists. reflexivity.
  - repeat constructor.
Defined.

Lemma canonical_fields_fixed d :
  valid_recordb d = true ->
  schema_typed (canonical_fields d) = true /\
  valid_recordb (canonical_fields d) = true /\
  canonical (canonical_fields d) = canonical d.
Proof. intros H. repeat split. exact H. Qed.

(** X4. Normalisation is idempotent: the canonical metadata of records
    that follow the schema, given back as annotations, is normalised to
    itself. *)
Theorem normalize_idempotent (records : list (list (string * pyval))) :
  Forall (fun d => schema_typed d = true) records ->
  exists out,
    normalize (PList (map PDict records)) = Ok out /\
    normalize (PList out) = Ok out.
Proof.
  intros H. eexists. split; [apply (normalize_typed records H)|].
  assert (E : map canonical (List.filter valid_recordb records) =
              map PDict (map canonical_fields (List.filter valid_recordb records)))
    by now rewrite map_map.
  rewrite E at 1. rewrite normalize_typed.
  - f_equal. clear H E.
    assert (V : Forall (fun d => valid_recordb d = true)
                  (List.filter valid_recordb records)).
    { apply List.Forall_forall. intros d Hd. now apply filter_In in Hd. }
    induction V as [|d l Vd _ IH]; [reflexivity|].
    destruct (canonical_fields_fixed d Vd) as (_ & Hv & Hc).
    cbn [map List.filter]. rewrite Hv. cbn [map]. now rewrite Hc, IH.
  - apply List.Forall_forall. intros x Hx. apply in_map_iff in Hx as (d & <- & Hd).
    reflexivity.
Qed.

Lemma normalize_idempotent_witness :
  exists out,
    normalize (PList (map PDict raw_records)) = Ok out /\
    normalize (PList out) = Ok out.
Proof. apply (normalize_idempotent raw_records). repeat constructor. Defined.

(** ** The timestamp index: errors, edge cases, composition *)

Lemma dict_set_not_nil {V : Type} k (v : V) d : dict_set k v d <> [].
Proof. destruct d as [|[k' v'] d]; cbn; [|destruct (py_eqb k' k)]; discriminate. Qed.

Lemma fold_bind_not_nil entries acc :
  acc <> [] \/ entries <> [] -> fold_left bind_entry entries acc <> [].
Proof.
  revert acc. induction entries as [|e entries IH]; intros acc H; cbn [fold_left].
  - destruct H as [H | H]; [exact H | congruence].
  - apply IH. left. apply dict_set_not_nil.
Qed.

(** X5. A video without metadata is no error: on a canonical artifact,
    when no entry names the video, [_get_word_timestamps] returns the
    empty mapping and logs one warning; when an entry names it, the
    mapping is not empty and no warning is logged. *)
Theorem no_metadata_is_a_warning (w : World) (vid : string)
  (entries : list MetadataEntry) :
  cache_ok w ->
  files w !! metadata_path w = Some (FJson (PList (map entry_py entries))) ->
  exists d w',
    _get_word_timestamps vid w = (Ok d, w') /\
    ((forall e, In e entries -> video_id e <> vid) ->
     d = [] /\
     trace w' = no_metadata_warning vid :: EvRead (metadata_path w) :: trace w) /\
    ((exists e, In e entries /\ video_id e = vid) ->
     d <> [] /\ trace w' = EvRead (metadata_path w) :: trace w).
Proof.
  intros Hc Hf. eexists _, _.
  split; [apply (get_word_timestamps_canonical w vid entries Hc Hf)|].
  split.
  - intros Hno.
    assert (E : List.filter (fun e => String.eqb (video_id e) vid) entries = []).
    { clear Hf. induction entries as [|e entries IH]; [reflexivity|].
      cbn [List.filter].
      destruct (String.eqb_spec (video_id e) vid) as [Ev|Ev].
      - exfalso. exact (Hno e (or_introl eq_refl) Ev).
      - apply IH. intros e' He'. apply Hno. now right. }
    rewrite E. split; reflexivity.
  - intros (e & He & Hv).
    assert (In e (List.filter (fun e => String.eqb (video_id e) vid) entries))
      as Hin by (apply filter_In; split; [exact He | now apply String.eqb_eq]).
    destruct (List.filter _ entries) as [|e0 es] eqn:E; [destruct Hin|].
    split; [|reflexivity]. apply fold_bind_not_nil. right. discriminate.
Qed.

Lemma no_metadata_is_a_warning_witness :
  exists d w',
    _get_word_timestamps "v3" metadata_world = (Ok d, w') /\
    d = [] /\
    trace w' = [no_metadata_warning "v3"; EvRead (metadata_path metadata_world)].
Proof.
  destruct (no_metadata_is_a_warning metadata_world "v3" [hi_0_1; hi_5_6; dog_1_3])
    as (d & w' & Hrun & Hno & _).
  - left. reflexivity.
  - reflexivity.
  - exists d, w'. split; [exact Hrun|]. apply Hno.
    intros e [<- | [<- | [<- | []]]]; discriminate.
Defined.

(** X6. Without the metadata artifact [_get_word_timestamps] raises
    [FileNotFoundError] and changes nothing: the cache is as before and
    nothing is logged or read. *)
Theorem timestamps_missing_artifact (w : World) (vid : string) :
  cache_ok w ->
  files w !! metadata_path w = None ->
  _get_word_timestamps vid w =
    (Raise (FileNotFoundError "WASL metadata file not found"), w).
Proof.
  intros Hc Hf. unfold metadata_path in Hf. unfold _get_word_timestamps. run.
  rewrite (cache_miss w vid Hc). cbn. now rewrite Hf.
Qed.

Lemma timestamps_missing_artifact_witness :
  _get_word_timestamps "v1" pose_world =
    (Raise (FileNotFoundError "WASL metadata file not found"), pose_world).
Proof.
  apply (timestamps_missing_artifact pose_world "v1").
  - left. reflexivity.
  - reflexivity.
Defined.

Lemma dict_set_str_nodup {V : Type} k (v : V) d :
  List.NoDup (map fst d) -> List.NoDup (map fst (dict_set (PStr k) v d)).
Proof.
  induction d as [|[k' v'] d IH]; cbn [dict_set map fst]; intros H.
  - constructor; [intros [] | constructor].
  - inversion H as [|? ? Hnot Hd]; subst.
    destruct (py_eqb k' (PStr k)) eqn:E; cbn [map fst]; [exact H|].
    constructor; [|now apply IH].
    intros Hin. apply in_map_iff in Hin as ([k1 v1] & Hk & Hin). cbn in Hk.
    subst k1. apply dict_set_keys in Hin as [-> | [v2 Hin]].
    + cbn in E. now rewrite String.eqb_refl in E.
    + apply Hnot. apply in_map_iff. now exists (k', v2).
Qed.

Lemma dict_set_str_has_key {V : Type} k (v : V) d :
  In (PStr k) (map fst (dict_set (PStr k) v d)).
Proof.
  induction d as [|[k' v'] d IH]; cbn [dict_set map fst]; [now left|].
  destruct (py_eqb k' (PStr k)) eqn:E; cbn [map fst].
  - left. now apply py_eqb_str in E.
  - right. exact IH.
Qed.

Lemma dict_set_keeps_keys {V : Type} k0 (v : V) d k :
  In k (map fst d) -> In k (map fst (dict_set k0 v d)).
Proof.
  induction d as [|[k' v'] d IH]; cbn [dict_set map fst]; [intros []|].
  destruct (py_eqb k' k0); cbn [map fst]; intros [H | H];
    [now left | now right | now left | right; now apply IH].
Qed.

Lemma fold_bind_nodup entries acc :
  List.NoDup (map fst acc) -> List.NoDup (map fst (fold_left bind_entry entries acc)).
Proof.
  revert acc. induction entries as [|e entries IH]; intros acc H; [exact H|].
  cbn [fold_left]. apply IH. now apply dict_set_str_nodup.
Qed.

Lemma fold_bind_has_keys entries acc k :
  In k (map fst acc) \/ (exists e, In e entries /\ k = PStr (word e)) ->
  In k (map fst (fold_left bind_entry entries acc)).
Proof.
  revert acc. induction entries as [|e entries IH]; intros acc H; cbn [fold_left].
  - destruct H as [H | (e & [] & _)]. exact H.
  - apply IH. destruct H as [H | (e' & [<- | He'] & ->)].
    + left. now apply dict_set_keeps_keys.
    + left. apply dict_set_str_has_key.
    + right. now exists e'.
Qed.

(** X7. The mapping of a video has exactly one binding per distinct
    word: its keys are pairwise different and they are the words of the
    entries of that video, however often a word is repeated. *)
Theorem one_binding_per_word (w : World) (vid : string)
  (entries : list MetadataEntry) :
  cache_ok w ->
  files w !! metadata_path w = Some (FJson (PList (map entry_py entries))) ->
  exists d w',
    _get_word_timestamps vid w = (Ok d, w') /\
    List.NoDup (map fst d) /\
    forall k,
      In k (map fst d) <->
      exists e, In e entries /\ video_id e = vid /\ k = PStr (word e).
Proof.
  intros Hc Hf. eexists _, _.
  split; [apply (get_word_timestamps_canonical w vid entries Hc Hf)|].
  split; [apply fold_bind_nodup; constructor|].
  intros k. split.
  - intros Hin. apply in_map_iff in Hin as ([k' v] & Hk & Hin). cbn in Hk. subst k'.
    apply fold_bind_keys in Hin as [[v' []] | (e & He & ->)].
    apply filter_In in He as [He Hv]. apply String.eqb_eq in Hv. now exists e.
  - intros (e & He & Hv & ->). apply fold_bind_has_keys. right. exists e.
    split; [|reflexivity]. apply filter_In. split; [exact He|].
    now apply String.eqb_eq.
Qed.

Lemma one_binding_per_word_witness :
  exists d w',
    _get_word_timestamps "v1" metadata_world = (Ok d, w') /\
    List.NoDup (map fst d) /\
    forall k,
      In k (map fst d) <->
      exists e, In e [hi_0_1; hi_5_6; dog_1_3] /\ video_id e = "v1" /\
                k = PStr (word e).
Proof.
  apply (one_binding_per_word metadata_world "v1" [hi_0_1; hi_5_6; dog_1_3]).
  - left. reflexivity.
  - reflexivity.
Defined.

Lemma process_WASL_structure_typed w records :
  is_Some (files w !! wasl_dir w) ->
  files w !! annotations_path w = Some (FJson (PList (map PDict records))) ->
  can_write w (metadata_path w) = true ->
  Forall (fun d => schema_typed d = true) records ->
  exists w1,
    _process_WASL_structure w = (Ok tt, w1) /\
    files w1 =
      <[metadata_path w :=
          FJson (PList (map canonical (List.filter valid_recordb records)))]>
        (files w) /\
    metadata_cache w1 = metadata_cache w /\ output_dir w1 = output_dir w.
Proof.
  intros [dir Hdir] Hann Hwr Hty.
  unfold annotations_path, metadata_path, wasl_dir in *.
  eexists. split; [|split; [|split]].
  - unfold _process_WASL_structure. run.
    rewrite Hdir. cbn. rewrite Hann. cbn. rewrite Hann. cbn.
    rewrite (normalize_typed records Hty). cbn.
    rewrite !can_write_with_trace, Hwr. reflexivity.
  - reflexivity.
  - reflexivity.
  - reflexivity.
Qed.

Lemma index_of_records vid wd records acc :
  dict_lookup (PStr wd)
    (fold_left bind_entry
       (List.filter (fun e => String.eqb (video_id e) vid)
          (map to_entry (List.filter valid_recordb records))) acc) =
  fold_left (interval_step vid wd) records (dict_lookup (PStr wd) acc).
Proof.
  revert acc. induction records as [|d records IH]; intros acc; [reflexivity|].
  cbn [List.filter fold_left]. unfold interval_step at 2.
  destruct (valid_recordb d); cbn [andb map List.filter]; [|apply IH].
  change (video_id (to_entry d)) with (rec_str d "video_id").
  destruct (String.eqb (rec_str d "video_id") vid); cbn [andb fold_left];
    [|apply IH].
  rewrite IH. f_equal. unfold bind_entry. apply dict_lookup_set_str.
Qed.

(** X8. Normalisation and the index compose on annotations that follow
    the schema (each of the four fields absent or of its type): the index
    built right after [_process_WASL_structure] binds a word of a video to
    the times of the last valid record of that video with that word; a
    record that fails the validity test binds nothing. *)
Theorem index_after_normalization (w : World)
  (records : list (list (string * pyval))) (vid : string) :
  cache_ok w ->
  is_Some (files w !! wasl_dir w) ->
  files w !! annotations_path w = Some (FJson (PList (map PDict records))) ->
  can_write w (metadata_path w) = true ->
  Forall (fun d => schema_typed d = true) records ->
  exists d w',
    (_process_WASL_structure ;;; _get_word_timestamps vid) w = (Ok d, w') /\
    forall wd, dict_lookup (PStr wd) d = last_valid_interval records vid wd.
Proof.
  intros Hc Hdir Hann Hwr Hty.
  destruct (process_WASL_structure_typed w records Hdir Hann Hwr Hty)
    as (w1 & Hrun & Hfiles & Hcache & Hout).
  assert (Hp : metadata_path w1 = metadata_path w)
    by (unfold metadata_path, metadata_dir; now rewrite Hout).
  assert (Hc1 : cache_ok w1) by (unfold cache_ok; now rewrite Hcache).
  assert (Hf1 : files w1 !! metadata_path w1 =
                Some (FJson (PList (map entry_py
                        (map to_entry (List.filter valid_recordb records)))))).
  { rewrite Hp, Hfiles, lookup_insert_eq. now rewrite map_map. }
  eexists _, _. split.
  - unfold bind at 1. rewrite Hrun.
    apply (get_word_timestamps_canonical w1 vid _ Hc1 Hf1).
  - intros wd. apply index_of_records.
Qed.

Lemma index_after_normalization_witness :
  exists d w',
    (_process_WASL_structure ;;; _get_word_timestamps "v1") raw_world = (Ok d, w') /\
    forall wd, dict_lookup (PStr wd) d = last_valid_interval raw_records "v1" wd.
Proof.
  apply (index_after_normalization raw_world raw_records "v1").
  - left. reflexivity.
  - eexists. reflexivity.
  - reflexivity.
  - reflexivity.
  - repeat constructor.
Defined.

(** ** The batch download: isolation and its limits *)

Lemma download_entry_canonical w e bound :
  ydl_raises_exceptions (ext w) ->
  exists w',
    download_entry (entry_py e) bound w = (Ok (Some (PStr (video_id e))), w') /\
    ext w' = ext w.
Proof.
  intros Hx. unfold download_entry, try_except, download_try, video_id_after.
  assert (H : py_getitem (entry_py e) "video_id" = Ok (PStr (video_id e)))
    by reflexivity.
  rewrite H.
  destruct (files w !! video_file w (PStr (video_id e)));
    [eexists; split; reflexivity|].
  unfold ydl_download_call.
  destruct (ydl_download (ext w) (trace w) (watch_url w (PStr (video_id e))))
    as [created [x|]] eqn:D.
  - rewrite (Hx _ _ _ _ D). run. eexists. split; reflexivity.
  - eexists. split; reflexivity.
Qed.

Lemma download_loop_canonical w entries bound :
  ydl_raises_exceptions (ext w) ->
  exists w', download_loop (map entry_py entries) bound w = (Ok tt, w').
Proof.
  revert w bound. induction entries as [|e entries IH]; intros w bound Hx.
  - now exists w.
  - cbn [map download_loop]. unfold bind.
    destruct (download_entry_canonical w e bound Hx) as (w1 & -> & He).
    apply IH. now rewrite He.
Qed.

Lemma add_blobs_keeps paths fs q :
  is_Some (fs !! q) \/ In q paths -> is_Some (add_blobs paths fs !! q).
Proof.
  induction paths as [|p paths IH]; cbn [add_blobs foldr].
  - intros [H | []]. exact H.
  - intros H. destruct (decide (p = q)) as [->|Hne].
    + rewrite lookup_insert_eq. eauto.
    + rewrite lookup_insert_ne by exact Hne. apply IH.
      destruct H as [H | [H | H]]; [now left | congruence | now right].
Qed.

Lemma advances_refl w : advances w w.
Proof. repeat split; auto. Qed.

Lemma advances_trans w1 w2 w3 : advances w1 w2 -> advances w2 w3 -> advances w1 w3.
Proof.
  intros (E1 & O1 & K1 & F1) (E2 & O2 & K2 & F2).
  split; [congruence|]. split; [congruence|]. split; [auto|].
  intros url. specialize (F1 url). specialize (F2 url). lia.
Qed.

(** One iteration on a canonical entry: it ends normally, and the video
    is on disk afterwards or its fetch was attempted. *)
Lemma download_entry_attends w e bound :
  ydl_raises_exceptions (ext w) ->
  exists w1,
    download_entry (entry_py e) bound w = (Ok (Some (PStr (video_id e))), w1) /\
    advances w w1 /\
    (is_Some (files w1 !! (output_dir w // "videos" // (video_id e +:+ ".mp4"))) \/
     fetches ("https://www.youtube.com/watch?v=" +:+ video_id e) w
     < fetches ("https://www.youtube.com/watch?v=" +:+ video_id e) w1).
Proof.
  intros Hx. unfold download_entry, try_except, download_try, video_id_after.
  assert (H : py_getitem (entry_py e) "video_id" = Ok (PStr (video_id e)))
    by reflexivity.
  rewrite H.
  change (video_file w (PStr (video_id e)))
    with (output_dir w // "videos" // (video_id e +:+ ".mp4")).
  change (watch_url w (PStr (video_id e)))
    with ("https://www.youtube.com/watch?v=" +:+ video_id e).
  destruct (files w !! (output_dir w // "videos" // (video_id e +:+ ".mp4")))
    as [f|] eqn:F.
  - exists w. split; [reflexivity|]. split; [apply advances_refl|].
    left. rewrite F. eauto.
  - unfold ydl_download_call.
    destruct (ydl_download (ext w) (trace w)
                ("https://www.youtube.com/watch?v=" +:+ video_id e))
      as [created [x|]] eqn:D.
    + rewrite (Hx _ _ _ _ D). run. eexists. split; [reflexivity|]. split.
      * split; [reflexivity|]. split; [reflexivity|]. split.
        -- intros q Hq. cbn. apply add_blobs_keeps. now left.
        -- intros url. unfold fetches. cbn.
           destruct (String.eqb url _); cbn; lia.
      * right. unfold fetches. cbn. rewrite String.eqb_refl. cbn. lia.
    + eexists. split; [reflexivity|]. split.
      * split; [reflexivity|]. split; [reflexivity|]. split.
        -- intros q Hq. cbn. apply add_blobs_keeps. now left.
        -- intros url. unfold fetches. cbn.
           destruct (String.eqb url _); cbn; lia.
      * right. unfold fetches. cbn. rewrite String.eqb_refl. cbn. lia.
Qed.

Lemma download_loop_attends entries w bound :
  ydl_raises_exceptions (ext w) ->
  exists w',
    download_loop (map entry_py entries) bound w = (Ok tt, w') /\
    advances w w' /\
    forall e, In e entries ->
      is_Some (files w' !! (output_dir w // "videos" // (video_id e +:+ ".mp4"))) \/
      fetches ("https://www.youtube.com/watch?v=" +:+ video_id e) w
      < fetches ("https://www.youtube.com/watch?v=" +:+ video_id e) w'.
Proof.
  revert w bound. induction entries as [|e entries IH]; intros w bound Hx.
  - exists w. split; [reflexivity|]. split; [apply advances_refl | intros ? []].
  - cbn [map download_loop]. unfold bind.
    destruct (download_entry_attends w e bound Hx) as (w1 & -> & Ha & Hat).
    destruct Ha as (E1 & O1 & K1 & F1).
    destruct (IH w1 (Some (PStr (video_id e)))) as (w' & Hrun & Ha' & Hrest);
      [now rewrite E1|].
    pose proof Ha' as (E2 & O2 & K2 & F2).
    exists w'. split; [exact Hrun|].
    split; [apply (advances_trans w w1 w'); [repeat split; auto | exact Ha']|].
    intros e' [<- | Hin].
    + destruct Hat as [Hp | Hf]; [left; now apply K2|].
      right. specialize (F2 ("https://www.youtube.com/watch?v=" +:+ video_id e)).
      lia.
    + destruct (Hrest e' Hin) as [Hp | Hf]; [left; now rewrite <- O1|].
      right. specialize (F1 ("https://www.youtube.com/watch?v=" +:+ video_id e')).
      lia.
Qed.

(** X9. One bad video does not stop the batch: on canonical metadata,
    as long as yt-dlp fails with ordinary exceptions, [download_wasl_videos]
    returns normally whichever fetches fail, and it has gone through all
    entries: for each of them, [<output_dir>/videos/<video_id>.mp4] is on
    disk at the end or the fetch of
    [https://www.youtube.com/watch?v=<video_id>] was attempted. *)
Theorem download_batch_isolated (w : World) (path : string)
  (entries : list MetadataEntry) :
  files w !! path = Some (FJson (PList (map entry_py entries))) ->
  ydl_raises_exceptions (ext w) ->
  exists w',
    download_wasl_videos path w = (Ok tt, w') /\
    forall e, In e entries ->
      is_Some (files w' !! (output_dir w // "videos" // (video_id e +:+ ".mp4"))) \/
      fetches ("https://www.youtube.com/watch?v=" +:+ video_id e) w
      < fetches ("https://www.youtube.com/watch?v=" +:+ video_id e) w'.
Proof.
  intros Hf Hx. unfold download_wasl_videos. run. rewrite Hf. cbn.
  match goal with |- context [download_loop _ None ?v] =>
    destruct (download_loop_attends entries v None Hx) as (w' & -> & _ & Hall)
  end.
  exists w'. split; [reflexivity|]. exact Hall.
Qed.

Lemma download_batch_isolated_witness :
  exists w',
    download_wasl_videos (metadata_path metadata_world) metadata_world = (Ok tt, w') /\
    forall e, In e [hi_0_1; hi_5_6; dog_1_3] ->
      is_Some (files w' !! (output_dir metadata_world // "videos"
                              // (video_id e +:+ ".mp4"))) \/
      fetches ("https://www.youtube.com/watch?v=" +:+ video_id e) metadata_world
      < fetches ("https://www.youtube.com/watch?v=" +:+ video_id e) w'.
Proof.
  apply (download_batch_isolated metadata_world (metadata_path metadata_world)
           [hi_0_1; hi_5_6; dog_1_3]).
  - reflexivity.
  - intros tr url created e [= _ <-]. reflexivity.
Defined.

(** All three fetches of the example fail and each failure is logged. *)
Example every_failure_logged :
  length (List.filter is_log
            (trace (snd (download_wasl_videos (metadata_path metadata_world)
                           metadata_world)))) = 4.
Proof. reflexivity. Qed.

(** X10. An entry without a [video_id] key is handled by the [except]
    branch, which formats the local [video_id]: as first entry of the
    metadata it leaves the local unbound, so the handler itself raises
    [UnboundLocalError] and the batch ends before any fetch; after another
    entry, the [KeyError] is logged under the video id of that earlier
    entry and the batch goes on. *)
Theorem missing_video_id_key (w : World) (d : list (string * pyval))
  (rest : list pyval) (v : pyval) :
  alist_get "video_id" d = None ->
  download_loop (PDict d :: rest) None w =
    (Raise (UnboundLocalError "video_id"), w) /\
  download_loop (PDict d :: rest) (Some v) w =
    download_loop rest (Some v)
      (with_trace (download_error_log w v (KeyError "video_id") :: trace w) w).
Proof.
  intros H. cbn [download_loop].
  unfold download_entry, try_except, download_try, video_id_after, py_getitem.
  rewrite H. split; reflexivity.
Qed.

Lemma missing_video_id_key_witness :
  download_loop (no_id_entry :: [entry_py hi_0_1]) None webm_world =
    (Raise (UnboundLocalError "video_id"), webm_world) /\
  download_loop (no_id_entry :: [entry_py hi_0_1]) (Some (PStr "v9")) webm_world =
    download_loop [entry_py hi_0_1] (Some (PStr "v9"))
      (with_trace (download_error_log webm_world (PStr "v9") (KeyError "video_id")
                     :: trace webm_world) webm_world).
Proof.
  apply (missing_video_id_key webm_world
           [("word", PStr "cat"); ("start_time", PNum 0); ("end_time", PNum 2)]
           [entry_py hi_0_1] (PStr "v9")).
  reflexivity.
Defined.

Lemma append_inj_l p a b : p +:+ a = p +:+ b -> a = b.
Proof.
  induction p as [|c p IH]; cbn; [auto|]. intros [= H]. auto.
Qed.

(** The invariant of the batch for one video: at most one fetch more
    than at the start, and none more while its file is still missing. *)
Lemma download_entry_once w vid n0 e bound :
  ydl_saves_mp4 w vid ->
  fetches (watch_url w (PStr vid)) w <= S n0 ->
  (files w !! video_file w (PStr vid) = None ->
   fetches (watch_url w (PStr vid)) w = n0) ->
  let w' := snd (download_entry (entry_py e) bound w) in
  ext w' = ext w /\ output_dir w' = output_dir w /\
  fetches (watch_url w (PStr vid)) w' <= S n0 /\
  (files w' !! video_file w (PStr vid) = None ->
   fetches (watch_url w (PStr vid)) w' = n0).
Proof.
  intros Hs Hle Hnone. cbv zeta.
  unfold download_entry, try_except, download_try, video_id_after.
  assert (H : py_getitem (entry_py e) "video_id" = Ok (PStr (video_id e)))
    by reflexivity.
  rewrite H.
  destruct (files w !! video_file w (PStr (video_id e))) eqn:F; [cbn; auto|].
  unfold ydl_download_call.
  pose proof (Hs (trace w)) as Hsaved.
  destruct (String.eqb_spec (video_id e) vid) as [Ev|Ev].
  - subst vid. specialize (Hnone F).
    destruct (ydl_download (ext w) (trace w) (watch_url w (PStr (video_id e))))
      as [created [x|]]; cbn [fst] in Hsaved;
      [destruct (is_Exception x)|]; unfold fetches in *; run;
      rewrite String.eqb_refl; cbn; (repeat split; [lia|]);
      intros Habs;
      destruct (add_blobs_keeps created (files w) _ (or_intror Hsaved)) as [f Hf];
      unfold video_file, videos_dir in Hf, Habs; cbn in Hf, Habs; congruence.
  - assert (Hu : String.eqb (watch_url w (PStr vid)) (watch_url w (PStr (video_id e)))
                 = false).
    { apply String.eqb_neq. unfold watch_url. cbn [format_value]. intros E.
      apply append_inj_l in E. congruence. }
    assert (Hmono : forall created,
              add_blobs created (files w) !! video_file w (PStr vid) = None ->
              files w !! video_file w (PStr vid) = None).
    { intros created Habs. destruct (files w !! video_file w (PStr vid)) eqn:G;
        [|reflexivity].
      destruct (add_blobs_keeps created (files w) (video_file w (PStr vid)))
        as [f' Hf']; [left; rewrite G; eauto | congruence]. }
    destruct (ydl_download (ext w) (trace w) (watch_url w (PStr (video_id e))))
      as [created [x|]];
      [destruct (is_Exception x)|]; unfold fetches in *; run;
      rewrite Hu; cbn; (repeat split; [exact Hle|]);
      intros Habs; apply Hnone; apply (Hmono created); exact Habs.
Qed.

Lemma download_loop_once vid n0 entries w bound :
  ydl_saves_mp4 w vid ->
  fetches (watch_url w (PStr vid)) w <= S n0 ->
  (files w !! video_file w (PStr vid) = None ->
   fetches (watch_url w (PStr vid)) w = n0) ->
  fetches (watch_url w (PStr vid))
    (snd (download_loop (map entry_py entries) bound w)) <= S n0.
Proof.
  revert w bound. induction entries as [|e entries IH]; intros w bound Hs Hle Hn.
  - exact Hle.
  - cbn [map download_loop]. unfold bind.
    pose proof (download_entry_once w vid n0 e bound Hs Hle Hn) as Hstep.
    cbv zeta in Hstep.
    destruct (download_entry (entry_py e) bound w) as [[b|x] w1];
      cbn [snd] in *; destruct Hstep as (Hx & Ho & Hle1 & Hn1); [|exact Hle1].
    assert (Hv : video_file w1 (PStr vid) = video_file w (PStr vid))
      by (unfold video_file, videos_dir; now rewrite Ho).
    assert (Hs1 : ydl_saves_mp4 w1 vid).
    { intros tr. unfold ydl_saves_mp4 in Hs. rewrite Hv, Hx. apply Hs. }
    specialize (IH w1 b Hs1). rewrite Hv in IH. apply IH; assumption.
Qed.

(** X11. Within one batch a video is fetched at most once, however many
    entries (words) name it, provided yt-dlp leaves it as [<video_id>.mp4]:
    the entries after the first find the file and skip the fetch. *)
Theorem batch_fetches_video_once (w : World) (entries : list MetadataEntry)
  (vid : string) (bound : option pyval) :
  ydl_saves_mp4 w vid ->
  fetches (watch_url w (PStr vid))
    (snd (download_loop (map entry_py entries) bound w))
  <= 1 + fetches (watch_url w (PStr vid)) w.
Proof.
  intros Hs. apply download_loop_once; [exact Hs | lia | reflexivity].
Qed.

Lemma batch_fetches_video_once_witness :
  fetches (watch_url (world_of ∅ mp4_tools) (PStr "v1"))
    (snd (download_loop (map entry_py [hi_0_1; hi_5_6; dog_1_3]) None
            (world_of ∅ mp4_tools)))
  <= 1 + fetches (watch_url (world_of ∅ mp4_tools) (PStr "v1"))
           (world_of ∅ mp4_tools).
Proof.
  apply (batch_fetches_video_once (world_of ∅ mp4_tools)
           [hi_0_1; hi_5_6; dog_1_3] "v1" None).
  intros tr. left. reflexivity.
Defined.

(** ** Segmentation and pose extraction: effects *)

Lemma split_loop_effects p items acc w :
  segmentation_succeeds (ext w) ->
  exists w',
    split_loop p items acc w = (Ok (acc ++ map (clip_of w p) items)%list, w') /\
    encodes w' = encodes w + length items /\
    (forall q, files w !! q = Some FBlob -> files w' !! q = Some FBlob) /\
    (forall item, In item items ->
       files w' !! path_str (snd (clip_of w p item)) = Some FBlob).
Proof.
  intros (Hopen & Hcut & Henc). revert acc w Hopen Hcut Henc.
  induction items as [|[word [t0 t1]] items IH]; intros acc w Hopen Hcut Henc.
  - exists w. cbn. rewrite app_nil_r. repeat split; [lia | auto | intros ? []].
  - cbn [split_loop]. unfold subclip_call, write_videofile_call. run.
    rewrite Hcut, Henc.
    match goal with |- context [split_loop p items ?a ?v] =>
      destruct (IH a v) as (w' & Hrun & Hn & Hkeep & Hnew);
        [exact Hopen | exact Hcut | exact Henc |]
    end.
    exists w'. rewrite Hrun. cbn [map]. rewrite <- app_assoc.
    split; [reflexivity|]. split; [|split].
    + rewrite Hn. unfold encodes. cbn. lia.
    + intros q Hq. apply Hkeep. cbn.
      destruct (decide (path_str (clip_path w p word) = q)) as [<-|Hne].
      * apply lookup_insert_eq.
      * now rewrite lookup_insert_ne.
    + intros item [<- | Hin].
      * apply Hkeep. cbn. apply lookup_insert_eq.
      * apply (Hnew item Hin).
Qed.

(** X12. When moviepy succeeds, [split_video_into_words] encodes one
    clip per entry of the mapping whether or not the clip file is already
    there (nothing is skipped on a second run), and afterwards the file of
    every returned clip is on disk. *)
Theorem segmentation_writes_every_clip (w : World) (p : Path)
  (items : list (pyval * (pyval * pyval))) :
  segmentation_succeeds (ext w) ->
  exists clips w',
    split_video_into_words p items w = (Ok clips, w') /\
    encodes w' = encodes w + length items /\
    forall word path, In (word, path) clips -> files w' !! path_str path = Some FBlob.
Proof.
  intros Hs. unfold split_video_into_words, video_open_call. run.
  rewrite (proj1 Hs).
  match goal with |- context [split_loop p items [] ?v] =>
    destruct (split_loop_effects p items [] v Hs) as (w1 & Hrun & Hn & _ & Hnew)
  end.
  rewrite Hrun. unfold video_close_call. eexists _, _.
  split; [reflexivity|]. split.
  - unfold encodes in *. cbn in *. exact Hn.
  - intros word path Hin. cbn in Hin. apply in_map_iff in Hin as (item & E & Hin).
    specialize (Hnew item Hin). unfold clip_of in *. cbn in *.
    injection E as _ <-. exact Hnew.
Qed.

Lemma segmentation_writes_every_clip_witness :
  exists clips w',
    split_video_into_words src_video dog_then_hi resegment_world = (Ok clips, w') /\
    encodes w' = encodes resegment_world + length dog_then_hi /\
    forall word path, In (word, path) clips -> files w' !! path_str path = Some FBlob.
Proof.
  apply (segmentation_writes_every_clip resegment_world src_video dog_then_hi).
  repeat split.
Defined.

Lemma process_with_openpose_launched w p :
  openpose_launches (ext w) ->
  exists w',
    process_with_openpose p w = (Ok tt, w') /\
    runs w' = S (runs w) /\ ext w' = ext w.
Proof.
  intros Hl. destruct (Hl (trace w) (openpose_cmd w p)) as (code & created & Hrun).
  unfold process_with_openpose, subprocess_run_checked, runs. run.
  rewrite Hrun. destruct (Z.eqb code 0); cbn; eexists; repeat split.
Qed.

(** X13. When the OpenPose binary can be started, the clip loop of
    [process_dataset] never stops early: it starts the process exactly
    once per clip and returns normally, whatever the exit statuses. *)
Theorem openpose_once_per_clip (w : World) (word_clips : list (pyval * Path)) :
  openpose_launches (ext w) ->
  exists w',
    openpose_loop word_clips w = (Ok tt, w') /\
    runs w' = runs w + length word_clips.
Proof.
  revert w. induction word_clips as [|[k p] rest IH]; intros w Hl.
  - exists w. cbn. split; [reflexivity | lia].
  - cbn [openpose_loop]. unfold bind.
    destruct (process_with_openpose_launched w p Hl) as (w1 & -> & Hr & Hx).
    destruct (IH w1) as (w' & Hrun & Hn); [now rewrite Hx|].
    exists w'. split; [exact Hrun|]. cbn [length]. lia.
Qed.

Lemma openpose_once_per_clip_witness :
  exists w',
    openpose_loop [(PStr "hi", clip_hi); (PStr "dog", clip_dog)]
      (clips_world crash_tools) = (Ok tt, w') /\
    runs w' = runs (clips_world crash_tools) + 2.
Proof.
  apply (openpose_once_per_clip (clips_world crash_tools)
           [(PStr "hi", clip_hi); (PStr "dog", clip_dog)]).
  intros tr cmd. exists 1%Z, []. reflexivity.
Defined.

(** X14. A video without metadata costs one read of the artifact, one
    open and one close of the video, and a warning: [process_video]
    produces no clip, starts no pose extraction, and returns normally. *)
Theorem video_without_metadata (w : World) (p : Path)
  (entries : list MetadataEntry) :
  cache_ok w ->
  files w !! metadata_path w = Some (FJson (PList (map entry_py entries))) ->
  (forall e, In e entries -> video_id e <> stem p) ->
  video_open (ext w)
    (no_metadata_warning (stem p) :: EvRead (metadata_path w) :: trace w)
    (path_str p) = None ->
  exists w',
    process_video p w = (Ok tt, w') /\
    trace w' =
      EvVideoClose (path_str p) :: EvVideoOpen (path_str p)
        :: no_metadata_warning (stem p) :: EvRead (metadata_path w) :: trace w /\
    files w' = files w /\ handles w' = handles w.
Proof.
  intros Hc Hf Hno Hopen.
  assert (E : List.filter (fun e => String.eqb (video_id e) (stem p)) entries = []).
  { clear Hf. induction entries as [|e entries IH]; [reflexivity|].
    cbn [List.filter].
    destruct (String.eqb_spec (video_id e) (stem p)) as [Ev|Ev].
    - exfalso. exact (Hno e (or_introl eq_refl) Ev).
    - apply IH. intros e' He'. apply Hno. now right. }
  unfold process_video. unfold bind at 1.
  rewrite (get_word_timestamps_canonical w (stem p) entries Hc Hf), E.
  cbn [fold_left]. unfold split_video_into_words, video_open_call,
    video_close_call, no_metadata_warning in *. run. rewrite Hopen. cbn.
  rewrite String.eqb_refl. eexists. repeat split.
Qed.

Lemma video_without_metadata_witness :
  exists w',
    process_video v3_video metadata_world = (Ok tt, w') /\
    trace w' =
      EvVideoClose (path_str v3_video) :: EvVideoOpen (path_str v3_video)
        :: no_metadata_warning (stem v3_video)
        :: EvRead (metadata_path metadata_world) :: trace metadata_world /\
    files w' = files metadata_world /\ handles w' = handles metadata_world.
Proof.
  apply (video_without_metadata metadata_world v3_video [hi_0_1; hi_5_6; dog_1_3]).
  - left. reflexivity.
  - reflexivity.
  - intros e [<- | [<- | [<- | []]]]; discriminate.
  - reflexivity.
Defined.

(** ** The join: errors and the shape of the artifact *)

Lemma mapping_loop_missing_word l1 d rest w mapping :
  Forall (fun e => pose_ok w e = true) l1 ->
  alist_get "word" d = None ->
  exists w',
    mapping_loop (map entry_py l1 ++ PDict d :: rest) mapping w =
      (Raise (KeyError "word"), w') /\
    only_trace w w'.
Proof.
  intros H Hd. revert w mapping H.
  induction l1 as [|e1 l1 IH]; intros w mapping H.
  - cbn [app map mapping_loop]. unfold py_getitem at 1. rewrite Hd.
    exists w. split; [reflexivity | apply only_trace_refl].
  - inversion H as [|? ? He Hrest]; subst. cbn [app map mapping_loop].
    change (py_getitem (entry_py e1) "word") with (@Ok pyval (PStr (word e1))).
    change (py_getitem (entry_py e1) "video_id")
      with (@Ok pyval (PStr (video_id e1))).
    unfold pose_ok, entry_pose_path in He.
    unfold bind at 1, lift at 1. unfold bind at 1, lift at 1.
    unfold bind at 1, self at 1. unfold bind at 1, path_exists at 1.
    destruct (files w !! pose_file w (PStr (video_id e1))) as [[| |v]|] eqn:F;
      try discriminate He.
    + unfold bind at 1, read_json at 1. rewrite F.
      unfold bind at 1, lift at 1. cbn [py_setitem hashable].
      destruct (IH (with_trace (EvRead (pose_file w (PStr (video_id e1))) :: trace w) w)
                  (dict_set (PStr (word e1)) v mapping) Hrest)
        as (w' & Hrun & Hot).
      exists w'. split; [exact Hrun | exact (only_trace_step _ _ _ Hot)].
    + apply (IH w mapping Hrest).
Qed.

(** X15. A metadata entry without a [word] key makes the join fail with
    [KeyError], whether or not its pose file exists: the word is looked up
    first, the bindings made for the entries before it are lost and no
    mapping is written. *)
Theorem join_missing_word (w : World) (l1 : list MetadataEntry)
  (d : list (string * pyval)) (rest : list pyval) :
  Forall (fun e => pose_ok w e = true) l1 ->
  alist_get "word" d = None ->
  exists w',
    create_word_pose_mapping (PList (map entry_py l1 ++ PDict d :: rest)) w =
      (Raise (KeyError "word"), w') /\
    files w' = files w.
Proof.
  intros H Hd.
  destruct (mapping_loop_missing_word l1 d rest w [] H Hd) as (w' & Hrun & Hot).
  exists w'. split; [|now apply only_trace_files].
  unfold create_word_pose_mapping. unfold bind at 1, lift at 1. cbn [py_iter].
  unfold bind at 1. now rewrite Hrun.
Qed.

Lemma join_missing_word_witness :
  exists w',
    create_word_pose_mapping
      (PList (map entry_py [hi_0_1] ++ PDict no_word_entry :: [entry_py dog_1_3]))
      pose_world =
      (Raise (KeyError "word"), w') /\
    files w' = files pose_world.
Proof.
  apply (join_missing_word pose_world [hi_0_1] no_word_entry [entry_py dog_1_3]).
  - repeat constructor.
  - reflexivity.
Defined.

Lemma fold_pose_some w wd entries acc v :
  fold_left (pose_step w wd) entries acc = Some v ->
  acc = Some v \/
  exists e, In e entries /\ word e = wd /\
            files w !! entry_pose_path w e = Some (FJson v).
Proof.
  revert acc. induction entries as [|e entries IH]; intros acc; cbn [fold_left].
  - now left.
  - intros H. apply IH in H as [H | (e' & He' & Hw' & Hf)].
    + unfold pose_step in H. destruct (String.eqb_spec (word e) wd) as [Ew|Ew];
        [|now left].
      destruct (files w !! entry_pose_path w e) as [[| |v']|] eqn:F;
        try (now left).
      right. exists e. split; [now left|]. split; [exact Ew|]. congruence.
    + right. exists e'. split; [now right | now split].
Qed.

Lemma fold_pose_nodup w entries acc :
  List.NoDup (map fst acc) ->
  List.NoDup (map fst (fold_left (bind_pose w) entries acc)).
Proof.
  revert acc. induction entries as [|e entries IH]; intros acc H; [exact H|].
  cbn [fold_left]. apply IH. unfold bind_pose.
  destruct (files w !! entry_pose_path w e) as [[| |v]|]; auto.
  now apply dict_set_str_nodup.
Qed.

Lemma dump_keys w d :
  str_keys d -> List.NoDup (map fst d) ->
  match dump_dict w d with
  | PDict m =>
      List.NoDup (map fst m) /\
      forall wd, In wd (map fst m) <-> In (PStr wd) (map fst d)
  | _ => False
  end.
Proof.
  unfold dump_dict, str_keys. induction 1 as [|[k v] d [s Hk] Hd IH]; intros Hn.
  - cbn. split; [constructor | tauto].
  - cbn in Hk. subst k. inversion Hn as [|? ? Hnot Hn']; subst.
    destruct (IH Hn') as [IHn IHk]. cbn [map fst snd]. split.
    + constructor; [|exact IHn]. intros Hin. apply Hnot. now apply IHk.
    + intros wd. cbn [In]. rewrite IHk. split.
      * intros [-> | H]; [now left | now right].
      * intros [[= ->] | H]; [now left | now right].
Qed.

(** X16. The artifact written by a successful join is a JSON object
    without duplicate keys, and its keys are exactly the words of the
    entries whose pose file exists: one key per word, however many entries
    and videos carry the word. *)
Theorem join_one_key_per_word (w : World) (entries : list MetadataEntry) :
  Forall (fun e => pose_ok w e = true) entries ->
  can_write w (mapping_path w) = true ->
  exists w' m,
    create_word_pose_mapping (PList (map entry_py entries)) w = (Ok tt, w') /\
    files w' !! mapping_path w = Some (FJson (PDict m)) /\
    List.NoDup (map fst m) /\
    forall wd,
      In wd (map fst m) <->
      exists e, In e entries /\ word e = wd /\
                is_Some (files w !! entry_pose_path w e).
Proof.
  intros H Hw.
  destruct (create_word_pose_mapping_canonical w entries H) as (w1 & Hot & Hrun).
  rewrite Hw in Hrun.
  assert (Hk : str_keys (fold_left (bind_pose w) entries ([] : list (pyval * pyval))))
    by (apply fold_pose_str_keys; constructor).
  assert (Hn : List.NoDup
                 (map fst (fold_left (bind_pose w) entries ([] : list (pyval * pyval)))))
    by (apply fold_pose_nodup; constructor).
  pose proof (dump_keys w _ Hk Hn) as Hd.
  pose proof (dump_lookup w) as Hl.
  destruct (dump_dict w (fold_left (bind_pose w) entries [])) as [| | | | |m] eqn:D;
    try contradiction.
  destruct Hd as [Hnd Hkeys].
  eexists _, m. split; [exact Hrun|]. split; [cbn; apply lookup_insert_eq|].
  split; [exact Hnd|].
  intros wd.
  assert (Hsome : In wd (map fst m) <-> alist_get wd m <> None).
  { clear. induction m as [|[k v] m IH]; cbn [map fst In alist_get].
    - split; [intros [] | congruence].
    - destruct (String.eqb_spec wd k) as [->|Hne].
      + split; [discriminate | now left].
      + rewrite <- IH. split; [intros [E | Hin]; [congruence | exact Hin] | now right]. }
  rewrite Hsome. specialize (Hl wd _ Hk). rewrite D in Hl. rewrite Hl.
  rewrite fold_pose_lookup. cbn [dict_lookup].
  rewrite List.Forall_forall in H. split.
  - intros Hne.
    destruct (fold_left (pose_step w wd) entries None) as [v|] eqn:E; [|congruence].
    apply fold_pose_some in E as [E | (e & He & Hw' & Hf)]; [discriminate|].
    exists e. split; [exact He|]. split; [exact Hw'|]. rewrite Hf. eauto.
  - intros (e & He & Hw' & [f Hf]) Hnone.
    apply fold_pose_none in Hnone as [_ Hall].
    specialize (H e He). unfold pose_ok in H. rewrite Hf in H.
    destruct f; try discriminate H. exact (Hall e He Hw' v Hf).
Qed.

Lemma join_one_key_per_word_witness :
  exists w' m,
    create_word_pose_mapping (PList (map entry_py [hi_0_1; hi_5_6; dog_1_3]))
      pose_world = (Ok tt, w') /\
    files w' !! mapping_path pose_world = Some (FJson (PDict m)) /\
    List.NoDup (map fst m) /\
    forall wd,
      In wd (map fst m) <->
      exists e, In e [hi_0_1; hi_5_6; dog_1_3] /\ word e = wd /\
                is_Some (files pose_world !! entry_pose_path pose_world e).
Proof.
  apply (join_one_key_per_word pose_world [hi_0_1; hi_5_6; dog_1_3]).
  - repeat constructor.
  - reflexivity.
Defined.

(** ** The constructor *)

Lemma append_nil_r s : s +:+ "" = s.
Proof.
  induction s as [|c s IH]; [reflexivity|].
  change (String c s +:+ "") with (String c (s +:+ "")). now rewrite IH.
Qed.

Lemma append_snoc s c r : (s +:+ String c "") +:+ r = s +:+ String c r.
Proof.
  induction s as [|a s IH]; [reflexivity|].
  change ((String a s +:+ String c "") +:+ r)
    with (String a ((s +:+ String c "") +:+ r)).
  now rewrite IH.
Qed.


Lemma ancestors_go_last seen rest : In (seen +:+ rest) (ancestors_go seen rest).
Proof.
  revert seen. induction rest as [|c r IH]; intros seen; cbn [ancestors_go].
  - rewrite append_nil_r. now left.
  - apply in_or_app. right. rewrite <- append_snoc. apply IH.
Qed.

Lemma ancestors_self p : In p (ancestors p).
Proof. exact (ancestors_go_last "" p). Qed.

Lemma mkdirs_spec l w w' :
  foldr (fun d k => mkdir_one d ;;; k) (ret tt) l w = (Ok tt, w') ->
  w' = with_files (files w') w /\
  (forall q f, files w !! q = Some f -> files w' !! q = Some f) /\
  (forall d, In d l -> files w' !! d = Some FDir).
Proof.
  revert w. induction l as [|d l IH]; intros w; cbn [foldr].
  - intros [= <-]. split; [now destruct w|]. split; [auto | intros ? []].
  - unfold bind, mkdir_one.
    destruct (files w !! d) as [[| |v]|] eqn:F; try discriminate.
    + intros H. apply IH in H as (Hw & Hkeep & Hdirs).
      split; [exact Hw|]. split; [exact Hkeep|].
      intros d' [<- | Hin]; [now apply Hkeep | now apply Hdirs].
    + intros H. apply IH in H as (Hw & Hkeep & Hdirs). cbn in Hkeep.
      split; [rewrite Hw at 1; reflexivity|]. split.
      * intros q f Hq. apply Hkeep. rewrite lookup_insert_ne; [exact Hq|].
        intros <-. congruence.
      * intros d' [<- | Hin]; [|now apply Hdirs].
        apply Hkeep. apply lookup_insert_eq.
Qed.

Lemma mkdirs_noop l w :
  (forall d, In d l -> files w !! d = Some FDir) ->
  foldr (fun d k => mkdir_one d ;;; k) (ret tt) l w = (Ok tt, w).
Proof.
  induction l as [|d l IH]; intros H; cbn [foldr]; [reflexivity|].
  unfold bind, mkdir_one. rewrite (H d (or_introl eq_refl)).
  apply IH. intros d' Hd'. apply H. now right.
Qed.

(** X17. After a successful constructor the four working directories
    exist as directories, every file that was there before is still there
    unchanged, and the cache is the empty dict. *)
Theorem constructor_creates_directories (dir : string) (fs : gmap string file)
  (ro : gset string) (x : External) (w : World) :
  WASLProcessor_init dir fs ro x = (Ok tt, w) ->
  files w !! videos_dir w = Some FDir /\
  files w !! pose_dir w = Some FDir /\
  files w !! metadata_dir w = Some FDir /\
  files w !! raw_data_dir w = Some FDir /\
  (forall q f, fs !! q = Some f -> files w !! q = Some f) /\
  metadata_cache w = PDict [] /\ output_dir w = dir.
Proof.
  unfold WASLProcessor_init. unfold bind at 1.
  match goal with |- context [mkdir (videos_dir ?v) ?v] => set (w0 := v) end.
  destruct (mkdir (videos_dir w0) w0) as [[[]|e] w1] eqn:E1; [|discriminate].
  unfold bind at 1.
  destruct (mkdir (pose_dir w0) w1) as [[[]|e] w2] eqn:E2; [|discriminate].
  unfold bind at 1.
  destruct (mkdir (metadata_dir w0) w2) as [[[]|e] w3] eqn:E3; [|discriminate].
  intros E4. unfold mkdir in E1, E2, E3, E4.
  apply mkdirs_spec in E1 as (H1 & K1 & D1). apply mkdirs_spec in E2 as (H2 & K2 & D2).
  apply mkdirs_spec in E3 as (H3 & K3 & D3). apply mkdirs_spec in E4 as (H4 & K4 & D4).
  assert (Hw : w = with_files (files w) w0).
  { rewrite H4, H3, H2, H1. reflexivity. }
  assert (Ho : output_dir w = dir) by (rewrite Hw; reflexivity).
  assert (Hc : metadata_cache w = PDict []) by (rewrite Hw; reflexivity).
  unfold videos_dir, pose_dir, metadata_dir, raw_data_dir in *. rewrite Ho.
  change (output_dir w0) with dir in *.
  split; [apply K4, K3, K2, D1, ancestors_self|].
  split; [apply K4, K3, D2, ancestors_self|].
  split; [apply K4, D3, ancestors_self|].
  split; [apply D4, ancestors_self|].
  split; [|split; [exact Hc | reflexivity]].
  intros q f Hq. apply K4, K3, K2, K1. exact Hq.
Qed.

Lemma constructor_creates_directories_witness :
  let w := snd (WASLProcessor_init "data/wasl_processed"
                  {[ "data/wasl_processed/videos/v1.mp4" := FBlob ]} ∅ no_tools) in
  files w !! videos_dir w = Some FDir /\
  files w !! pose_dir w = Some FDir /\
  files w !! metadata_dir w = Some FDir /\
  files w !! raw_data_dir w = Some FDir /\
  (forall q f,
     ({[ "data/wasl_processed/videos/v1.mp4" := FBlob ]} : gmap string file) !! q
       = Some f ->
     files w !! q = Some f) /\
  metadata_cache w = PDict [] /\ output_dir w = "data/wasl_processed".
Proof.
  apply (constructor_creates_directories "data/wasl_processed"
           {[ "data/wasl_processed/videos/v1.mp4" := FBlob ]} ∅ no_tools).
  vm_compute. reflexivity.
Defined.

(** X18. The constructor is idempotent ([exist_ok]): run again on the
    file system a successful run left, it succeeds and yields the same
    processor on the same file system. *)
Theorem constructor_idempotent (dir : string) (fs : gmap string file)
  (ro : gset string) (x : External) (w : World) :
  WASLProcessor_init dir fs ro x = (Ok tt, w) ->
  WASLProcessor_init dir (files w) ro x = (Ok tt, w).
Proof.
  unfold WASLProcessor_init. unfold bind at 1.
  match goal with |- context [mkdir (videos_dir ?v) ?v] => set (w0 := v) end.
  destruct (mkdir (videos_dir w0) w0) as [[[]|e] w1] eqn:E1; [|discriminate].
  unfold bind at 1.
  destruct (mkdir (pose_dir w0) w1) as [[[]|e] w2] eqn:E2; [|discriminate].
  unfold bind at 1.
  destruct (mkdir (metadata_dir w0) w2) as [[[]|e] w3] eqn:E3; [|discriminate].
  intros E4. unfold mkdir in E1, E2, E3, E4.
  apply mkdirs_spec in E1 as (H1 & K1 & D1). apply mkdirs_spec in E2 as (H2 & K2 & D2).
  apply mkdirs_spec in E3 as (H3 & K3 & D3). apply mkdirs_spec in E4 as (H4 & K4 & D4).
  assert (Hw : w = with_files (files w) w0).
  { rewrite H4, H3, H2, H1. reflexivity. }
  change {| output_dir := dir; openpose_path := "path/to/openpose";
            metadata_cache := PDict []; files := files w; unwritable := ro;
            handles := []; trace := []; ext := x |}
    with (with_files (files w) w0).
  rewrite <- Hw.
  assert (Hv : videos_dir w = videos_dir w0) by (rewrite Hw; reflexivity).
  assert (Hp : pose_dir w = pose_dir w0) by (rewrite Hw; reflexivity).
  assert (Hm : metadata_dir w = metadata_dir w0) by (rewrite Hw; reflexivity).
  assert (Hr : raw_data_dir w = raw_data_dir w0) by (rewrite Hw; reflexivity).
  rewrite Hv, Hp, Hm, Hr.
  assert (N1 : mkdir (videos_dir w0) w = (Ok tt, w))
    by (apply mkdirs_noop; intros d Hd; apply K4, K3, K2, D1, Hd).
  assert (N2 : mkdir (pose_dir w0) w = (Ok tt, w))
    by (apply mkdirs_noop; intros d Hd; apply K4, K3, D2, Hd).
  assert (N3 : mkdir (metadata_dir w0) w = (Ok tt, w))
    by (apply mkdirs_noop; intros d Hd; apply K4, D3, Hd).
  assert (N4 : mkdir (raw_data_dir w0) w = (Ok tt, w))
    by (apply mkdirs_noop; intros d Hd; apply D4, Hd).
  unfold bind at 1. rewrite N1. unfold bind at 1. rewrite N2.
  unfold bind at 1. rewrite N3. exact N4.
Qed.

Lemma constructor_idempotent_witness :
  let w := snd (WASLProcessor_init "data/wasl_processed"
                  {[ "data/wasl_processed/videos/v1.mp4" := FBlob ]} ∅ no_tools) in
  WASLProcessor_init "data/wasl_processed" (files w) ∅ no_tools = (Ok tt, w).
Proof.
  apply (constructor_idempotent "data/wasl_processed"
           {[ "data/wasl_processed/videos/v1.mp4" := FBlob ]} ∅ no_tools).
  vm_compute. reflexivity.
Defined.

(** ** [get_WASL]: what is left behind *)

Lemma bind_inv {A B : Type} (m : M A) (k : A -> M B) w r w' :
  bind m k w = (r, w') ->
  (exists e, m w = (Raise e, w') /\ r = Raise e) \/
  (exists a w1, m w = (Ok a, w1) /\ k a w1 = (r, w')).
Proof.
  unfold bind. destruct (m w) as [[a|e] w1].
  - intros H. right. now exists a, w1.
  - intros [= <- <-]. left. now exists e.
Qed.

Lemma grows_refl w : grows w w.
Proof. split; auto. Qed.

Lemma grows_trans w1 w2 w3 : grows w1 w2 -> grows w2 w3 -> grows w1 w3.
Proof. intros [H1 K1] [H2 K2]. split; [congruence | auto]. Qed.

Lemma add_files_keeps created fs q :
  is_Some (fs !! q) -> is_Some (add_files created fs !! q).
Proof.
  intros H. induction created as [|[p f] created IH]; cbn [add_files foldr]; [exact H|].
  cbn [fst snd]. destruct (decide (p = q)) as [->|Hne].
  - rewrite lookup_insert_eq. eauto.
  - now rewrite lookup_insert_ne.
Qed.

Lemma insert_keeps (fs : gmap string file) p f q :
  is_Some (fs !! q) -> is_Some (<[p := f]> fs !! q).
Proof.
  intros H. destruct (decide (p = q)) as [->|Hne].
  - rewrite lookup_insert_eq. eauto.
  - now rewrite lookup_insert_ne.
Qed.

Lemma process_WASL_structure_grows w :
  grows w (snd (_process_WASL_structure w)).
Proof.
  unfold _process_WASL_structure, grows. run.
  destruct (files w !! (output_dir w // "raw" // "WASL")); cbn;
    [|split; [reflexivity | auto]].
  destruct (files w !! (output_dir w // "raw" // "WASL" // "annotations.json"))
    as [[| |v]|] eqn:F; cbn; rewrite ?F; cbn;
    try (split; [reflexivity | now auto]).
  destruct (normalize v); cbn; [|split; [reflexivity | auto]].
  rewrite !can_write_with_trace.
  destruct (can_write w _); cbn; [|split; [reflexivity | auto]].
  split; [reflexivity|]. intros q. apply insert_keeps.
Qed.

Lemma process_WASL_structure_ok w w' :
  _process_WASL_structure w = (Ok tt, w') ->
  output_dir w' = output_dir w /\
  exists m, files w' !! metadata_path w = Some (FJson (PList m)).
Proof.
  unfold _process_WASL_structure, metadata_path. run.
  destruct (files w !! (output_dir w // "raw" // "WASL")); cbn; [|discriminate].
  destruct (files w !! (output_dir w // "raw" // "WASL" // "annotations.json"))
    as [[| |v]|] eqn:F; cbn; rewrite ?F; cbn; try discriminate.
  destruct (normalize v) as [m|]; cbn; [|discriminate].
  rewrite !can_write_with_trace.
  destruct (can_write w _); cbn; [|discriminate].
  intros [= <-]. cbn. split; [reflexivity|]. exists m. apply lookup_insert_eq.
Qed.

Lemma append_assoc a b c : (a +:+ b) +:+ c = a +:+ (b +:+ c).
Proof.
  induction a as [|x a IH]; [reflexivity|].
  change ((String x a +:+ b) +:+ c) with (String x ((a +:+ b) +:+ c)).
  now rewrite IH.
Qed.

Lemma zip_is_not_metadata w : zip_path w <> metadata_path w.
Proof.
  unfold zip_path, metadata_path, raw_data_dir, metadata_dir, path_join.
  rewrite !append_assoc. intros H. apply append_inj_l in H. discriminate H.
Qed.

Ltac step H :=
  let e := fresh "e" in
  let a := fresh "a" in
  let w1 := fresh "w" in
  let Hm := fresh "Hm" in
  apply bind_inv in H as [(e & Hm & ->) | (a & w1 & Hm & H)].

Lemma get_WASL_body_spec a url w r w' :
  get_WASL_body a url w = (r, w') ->
  match r with
  | Ok _ =>
      files w' !! zip_path w = None /\
      exists m, files w' !! metadata_path w = Some (FJson (PList m))
  | Raise _ =>
      download_starts a url -> can_write w (zip_path w) = true ->
      is_Some (files w' !! zip_path w)
  end.
Proof.
  intros H. unfold get_WASL_body in H.
  step H; [discriminate Hm|]. injection Hm as <- <-.
  step H; [discriminate Hm|]. injection Hm as _ <-.
  step H.
  { intros [Hreq _] _. unfold requests_get_call in Hm.
    rewrite Hreq in Hm. discriminate Hm. }
  unfold requests_get_call in Hm.
  destruct (requests_get a _ url); [discriminate Hm|]. injection Hm as _ <-.
  step H.
  { intros [_ Hlen] _. unfold content_length_call in Hm.
    match type of Hm with (content_length a ?tr url, _) = _ =>
      destruct (Hlen tr) as [n Hn]; rewrite Hn in Hm end.
    discriminate Hm. }
  unfold content_length_call in Hm. injection Hm as _ <-.
  step H.
  { intros _ Hcw. unfold open_wb in Hm. rewrite !can_write_with_trace, Hcw in Hm.
    discriminate Hm. }
  unfold open_wb in Hm. rewrite !can_write_with_trace in Hm.
  destruct (can_write w (zip_path w)); [|discriminate Hm]. injection Hm as _ <-.
  step H.
  { intros _ _. unfold iter_content_call in Hm.
    destruct (iter_content a _ url); [|discriminate Hm]. injection Hm as _ <-.
    cbn. rewrite lookup_insert_eq. eauto. }
  unfold iter_content_call in Hm.
  destruct (iter_content a _ url); [discriminate Hm|]. injection Hm as _ <-.
  step H; [discriminate Hm|]. injection Hm as _ <-.
  assert (Hzip : forall created,
            is_Some (add_files created (<[zip_path w := FBlob]> (files w))
                     !! zip_path w)).
  { intros created. apply add_files_keeps. rewrite lookup_insert_eq. eauto. }
  step H.
  { intros _ _. unfold extractall_call in Hm. cbn in Hm.
    destruct (extractall a _ _ _) as [created [x|]]; [|discriminate Hm].
    injection Hm as _ <-. cbn. apply Hzip. }
  unfold extractall_call in Hm. cbn in Hm.
  destruct (extractall a _ _ _) as [created [x|]]; [discriminate Hm|].
  injection Hm as _ <-.
  step H.
  { intros _ _.
    match type of Hm with _process_WASL_structure ?v = _ =>
      pose proof (process_WASL_structure_grows v) as [_ Hg] end.
    rewrite Hm in Hg. cbn [snd] in Hg. apply Hg. cbn. apply Hzip. }
  match type of Hm with _ = (Ok ?u, _) => destruct u end.
  match type of Hm with _process_WASL_structure ?v = _ =>
    pose proof (process_WASL_structure_grows v) as [_ Hg];
    pose proof (process_WASL_structure_ok v _ Hm) as [Ho [m Hmeta]] end.
  rewrite Hm in Hg. cbn [snd] in Hg. clear Hm.
  change (metadata_path _) with (metadata_path w) in Hmeta.
  step H.
  { intros _ _. unfold unlink in Hm.
    destruct (files w0 !! zip_path w) as [[| |v]|] eqn:F; try discriminate Hm;
      injection Hm as _ <-; rewrite F; [eauto|].
    exfalso. destruct (Hg (zip_path w)) as [f Hf]; [cbn; apply Hzip|].
    congruence. }
  unfold unlink in Hm.
  destruct (files w0 !! zip_path w) as [[| |v]|] eqn:F; try discriminate Hm;
    injection Hm as _ <-; injection H as <- <-; cbn;
    (split; [apply lookup_delete_eq|]); exists m;
    (rewrite lookup_delete_ne; [exact Hmeta | apply zip_is_not_metadata]).
Qed.

(** X19. [get_WASL] returns normally only after the whole stage went
    through: the canonical metadata artifact is then on disk and the
    downloaded archive has been deleted. *)
Theorem get_WASL_success (a : Archive) (dataset_url : option string)
  (w w' : World) :
  get_WASL a dataset_url w = (Ok tt, w') ->
  files w' !! zip_path w = None /\
  exists m, files w' !! metadata_path w = Some (FJson (PList m)).
Proof.
  unfold get_WASL. unfold bind at 1, log at 1, emit at 1, try_except.
  destruct (get_WASL_body a _ _) as [[[]|e] w1] eqn:B.
  - intros [= <-]. apply get_WASL_body_spec in B. exact B.
  - destruct (is_Exception e); [|discriminate]. run. discriminate.
Qed.

Lemma get_WASL_success_witness :
  let w' := snd (get_WASL good_archive None (world_of ∅ no_tools)) in
  files w' !! zip_path (world_of ∅ no_tools) = None /\
  exists m, files w' !! metadata_path (world_of ∅ no_tools) = Some (FJson (PList m)).
Proof.
  apply (get_WASL_success good_archive None (world_of ∅ no_tools)).
  vm_compute. reflexivity.
Defined.

(** X20. A failure of [get_WASL] is logged and raised again, and nothing
    is cleaned up: whenever the download got as far as opening
    [WASL.zip] for writing (the request went through, the size header was
    a number, the file could be opened), the archive, possibly partial, is
    still on disk when the exception leaves the function. *)
Theorem get_WASL_failure (a : Archive) (dataset_url : option string)
  (w w' : World) (e : exn) :
  get_WASL a dataset_url w = (Raise e, w') ->
  (is_Exception e = true ->
   hd_error (trace w') = Some (EvLog ERROR get_WASL_error (Some e))) /\
  (download_starts a (resolved_url dataset_url) ->
   can_write w (zip_path w) = true ->
   is_Some (files w' !! zip_path w)).
Proof.
  unfold get_WASL, resolved_url.
  unfold bind at 1, log at 1, emit at 1, try_except.
  destruct (get_WASL_body a _ _) as [[[]|x] w1] eqn:B; [discriminate|].
  apply get_WASL_body_spec in B.
  change (zip_path (with_trace _ w)) with (zip_path w) in B.
  rewrite can_write_with_trace in B.
  destruct (is_Exception x) eqn:X.
  - run. intros [= <- <-]. split; [reflexivity|]. exact B.
  - intros [= <- <-]. split; [congruence | exact B].
Qed.

Lemma get_WASL_failure_witness :
  let r := get_WASL bad_zip_archive None (world_of ∅ no_tools) in
  fst r = Raise (ExternalError "BadZipFile") /\
  hd_error (trace (snd r)) =
    Some (EvLog ERROR get_WASL_error (Some (ExternalError "BadZipFile"))) /\
  is_Some (files (snd r) !! zip_path (world_of ∅ no_tools)).
Proof.
  cbv zeta. split; [reflexivity|].
  pose proof (get_WASL_failure bad_zip_archive None (world_of ∅ no_tools)
                (snd (get_WASL bad_zip_archive None (world_of ∅ no_tools)))
                (ExternalError "BadZipFile")) as H.
  destruct H as [H1 H2]; [vm_compute; reflexivity|].
  split.
  - apply H1. reflexivity.
  - apply H2; [|reflexivity].
    split; intros tr; [reflexivity | exists 0%Z; reflexivity].
Defined.

(** ** The download loop of [get_WLASL.py]: isolation and its price *)

Lemma get_sample_isolated w s :
  urlretrieve_raises_exceptions (ext w) ->
  exists w',
    get_sample s w = (Ok tt, w') /\ ext w' = ext w /\
    attempts w' <= S (attempts w).
Proof.
  intros Hx. unfold get_sample, urlretrieve_call, attempts. run.
  destruct (files w !! raw_video_path w s).
  - exists w. split; [reflexivity|]. split; [reflexivity | lia].
  - cbn. destruct (urlretrieve _ _ _ _) as [created [e|]] eqn:U.
    + rewrite (Hx _ _ _ _ _ U). eexists. split; [reflexivity|].
      split; [reflexivity|]. cbn. lia.
    + eexists. split; [reflexivity|]. split; [reflexivity|]. cbn. lia.
Qed.

Lemma get_sample_attends w s :
  urlretrieve_raises_exceptions (ext w) ->
  exists w1,
    get_sample s w = (Ok tt, w1) /\
    advances w w1 /\ attempts w1 <= S (attempts w) /\
    (is_Some (files w1 !! raw_video_path w s) \/
     fetches (video s) w < fetches (video s) w1).
Proof.
  intros Hx. unfold get_sample, urlretrieve_call, attempts, fetches. run.
  destruct (files w !! raw_video_path w s) as [f|] eqn:F.
  - exists w. split; [reflexivity|]. split; [apply advances_refl|].
    split; [lia|]. left. rewrite F. eauto.
  - cbn. destruct (urlretrieve _ _ _ _) as [created [e|]] eqn:U.
    + rewrite (Hx _ _ _ _ _ U). eexists. split; [reflexivity|]. split.
      * split; [reflexivity|]. split; [reflexivity|]. split.
        -- intros q Hq. cbn. destruct created; [now apply insert_keeps | exact Hq].
        -- intros url. unfold fetches. cbn.
           destruct (String.eqb url _); cbn; lia.
      * split; [cbn; lia|]. right. cbn. rewrite String.eqb_refl. cbn. lia.
    + eexists. split; [reflexivity|]. split.
      * split; [reflexivity|]. split; [reflexivity|]. split.
        -- intros q Hq. cbn. destruct created; [now apply insert_keeps | exact Hq].
        -- intros url. unfold fetches. cbn.
           destruct (String.eqb url _); cbn; lia.
      * split; [cbn; lia|]. right. cbn. rewrite String.eqb_refl. cbn. lia.
Qed.

(** X21. One failed download does not stop the loop of [get_WLASL.py]:
    as long as urllib fails with ordinary exceptions, the loop ends
    normally and it has gone through the whole dataset: for every sample,
    [data/raw_videos/<gloss>_<instance_id>.mp4] is on disk at the end or
    the fetch of its URL was attempted; and there are no more fetches than
    samples (nothing is retried). *)
Theorem get_WLASL_loop_isolated (w : World) (dataset : list sample) :
  urlretrieve_raises_exceptions (ext w) ->
  exists w',
    get_WLASL_loop dataset w = (Ok tt, w') /\
    attempts w' <= attempts w + length dataset /\
    forall s, In s dataset ->
      is_Some (files w' !!
                 ("data/raw_videos/" +:+ format_value w (gloss s) +:+ "_"
                    +:+ format_value w (instance_id s) +:+ ".mp4")) \/
      fetches (video s) w < fetches (video s) w'.
Proof.
  intros Hx.
  assert (G : exists w',
             get_WLASL_loop dataset w = (Ok tt, w') /\
             advances w w' /\
             attempts w' <= attempts w + length dataset /\
             forall s, In s dataset ->
               is_Some (files w' !! raw_video_path w s) \/
               fetches (video s) w < fetches (video s) w').
  { revert w Hx. induction dataset as [|s dataset IH]; intros w Hx.
    - exists w. split; [reflexivity|]. split; [apply advances_refl|].
      split; [cbn; lia | intros ? []].
    - cbn [get_WLASL_loop]. unfold bind.
      destruct (get_sample_attends w s Hx) as (w1 & -> & Ha & Hn1 & Hat).
      pose proof Ha as (E1 & O1 & K1 & F1).
      destruct (IH w1) as (w' & Hrun & Ha' & Hn & Hrest); [now rewrite E1|].
      pose proof Ha' as (E2 & O2 & K2 & F2).
      exists w'. split; [exact Hrun|].
      split; [apply (advances_trans w w1 w'); assumption|].
      split; [cbn [length]; lia|].
      intros s' [<- | Hin].
      + destruct Hat as [Hp | Hf]; [left; now apply K2|].
        right. specialize (F2 (video s)). lia.
      + destruct (Hrest s' Hin) as [Hp | Hf].
        * left. unfold raw_video_path, format_value in *. now rewrite <- E1.
        * right. specialize (F1 (video s')). lia. }
  destruct G as (w' & Hrun & _ & Hn & Hall).
  exists w'. split; [exact Hrun|]. split; [exact Hn | exact Hall].
Qed.

Lemma get_WLASL_loop_isolated_witness :
  exists w',
    get_WLASL_loop [book_7; drink_3] (world_of ∅ no_tools) = (Ok tt, w') /\
    attempts w' <= attempts (world_of ∅ no_tools) + 2 /\
    forall s, In s [book_7; drink_3] ->
      is_Some (files w' !!
                 ("data/raw_videos/" +:+ format_value (world_of ∅ no_tools) (gloss s)
                    +:+ "_"
                    +:+ format_value (world_of ∅ no_tools) (instance_id s)
                    +:+ ".mp4")) \/
      fetches (video s) (world_of ∅ no_tools) < fetches (video s) w'.
Proof.
  apply (get_WLASL_loop_isolated (world_of ∅ no_tools) [book_7; drink_3]).
  intros tr url out created e [= _ <-]. reflexivity.
Defined.

(** X22. A download that fails after the output file was created is
    never repaired: the failure is only printed, the partial file stays
    at [data/raw_videos/<gloss>_<instance_id>.mp4], and on the next pass
    the sample is skipped because that file exists. *)
Theorem partial_download_kept (w : World) (s : sample) (e : exn) :
  files w !! raw_video_path w s = None ->
  (forall tr, urlretrieve (ext w) tr (video s) (raw_video_path w s)
              = (true, Some e)) ->
  is_Exception e = true ->
  exists w1,
    get_sample s w = (Ok tt, w1) /\
    files w1 !! raw_video_path w s = Some FBlob /\
    get_sample s w1 = (Ok tt, w1).
Proof.
  intros Hf Hu He.
  assert (H1 : exists w1,
             get_sample s w = (Ok tt, w1) /\
             files w1 !! raw_video_path w s = Some FBlob /\
             raw_video_path w1 s = raw_video_path w s).
  { unfold get_sample, urlretrieve_call. run.
    rewrite Hf. cbn. rewrite Hu, He. cbn. eexists. split; [reflexivity|].
    split; [cbn; apply lookup_insert_eq | reflexivity]. }
  destruct H1 as (w1 & H1 & H2 & H3). exists w1.
  split; [exact H1|]. split; [exact H2|].
  apply get_sample_present. rewrite H3, H2. eauto.
Qed.

Lemma partial_download_kept_witness :
  exists w1,
    get_sample book_7 (world_of ∅ partial_tools) = (Ok tt, w1) /\
    files w1 !! raw_video_path (world_of ∅ partial_tools) book_7 = Some FBlob /\
    get_sample book_7 w1 = (Ok tt, w1).
Proof.
  apply (partial_download_kept (world_of ∅ partial_tools) book_7
           (ExternalError "ContentTooShortError")).
  - reflexivity.
  - intros tr. reflexivity.
  - reflexivity.
Defined.

(** ** The pipeline *)

(** X23. [process_dataset] fails fast on a missing metadata path: it
    raises [FileNotFoundError] for that path after two log lines, and
    nothing else has happened: no fetch, no file written, no video
    opened. *)
Theorem process_dataset_missing_metadata (w : World) (path : string) :
  files w !! path = None ->
  process_dataset path w =
    (Raise (FileNotFoundError path),
     with_trace (EvLog INFO "Starting WASL video downloads..." None
                 :: EvLog INFO "Starting WASL dataset processing..." None
                 :: trace w) w).
Proof.
  intros H. unfold process_dataset, download_wasl_videos. run. now rewrite H.
Qed.

Lemma process_dataset_missing_metadata_witness :
  process_dataset "data/wasl_processed/metadata/wasl_metadata.json" pose_world =
    (Raise (FileNotFoundError "data/wasl_processed/metadata/wasl_metadata.json"),
     with_trace (EvLog INFO "Starting WASL video downloads..." None
                 :: EvLog INFO "Starting WASL dataset processing..." None
                 :: trace pose_world) pose_world).
Proof.
  apply (process_dataset_missing_metadata pose_world
           "data/wasl_processed/metadata/wasl_metadata.json").
  reflexivity.
Defined.




Lemma dict_set_values {V : Type} k0 (v0 : V) d k v :
  In (k, v) (dict_set k0 v0 d) -> v = v0 \/ In (k, v) d.
Proof.
  induction d as [|[k' v'] d IH]; cbn [dict_set].
  - intros [[= _ <-] | []]. now left.
  - destruct (py_eqb k' k0).
    + intros [[= <- <-] | H]; [now left | right; now right].
    + intros [E | H]; [right; now left|].
      destruct (IH H) as [-> | H']; [now left | right; now right].
Qed.

Lemma fold_bind_values entries acc k v :
  In (k, v) (fold_left bind_entry entries acc) ->
  In (k, v) acc \/
  exists e, In e entries /\ v = (PNum (start_time e), PNum (end_time e)).
Proof.
  revert acc. induction entries as [|e entries IH]; intros acc; cbn [fold_left].
  - now left.
  - intros H. destruct (IH _ H) as [H' | (e' & He' & ->)].
    + unfold bind_entry in H'. apply dict_set_values in H' as [-> | H'].
      * right. exists e. split; [now left | reflexivity].
      * now left.
    + right. exists e'. split; [now right | reflexivity].
Qed.

(** X25. On annotations that follow the schema (each of the four
    fields absent or of its type), every interval the index hands to the
    segmenter after a normalisation is a proper one: each binding is a pair
    of numbers with the start strictly before the end. *)
Theorem index_intervals_proper (w : World)
  (records : list (list (string * pyval))) (vid : string) :
  cache_ok w ->
  is_Some (files w !! wasl_dir w) ->
  files w !! annotations_path w = Some (FJson (PList (map PDict records))) ->
  can_write w (metadata_path w) = true ->
  Forall (fun d => schema_typed d = true) records ->
  exists d w',
    (_process_WASL_structure ;;; _get_word_timestamps vid) w = (Ok d, w') /\
    forall k t0 t1,
      In (k, (t0, t1)) d ->
      exists a b, t0 = PNum a /\ t1 = PNum b /\ (a < b)%Q.
Proof.
  intros Hc Hdir Hann Hwr Hty.
  destruct (process_WASL_structure_typed w records Hdir Hann Hwr Hty)
    as (w1 & Hrun & Hfiles & Hcache & Hout).
  assert (Hp : metadata_path w1 = metadata_path w)
    by (unfold metadata_path, metadata_dir; now rewrite Hout).
  assert (Hc1 : cache_ok w1) by (unfold cache_ok; now rewrite Hcache).
  assert (Hf1 : files w1 !! metadata_path w1 =
                Some (FJson (PList (map entry_py
                        (map to_entry (List.filter valid_recordb records)))))).
  { rewrite Hp, Hfiles, lookup_insert_eq. now rewrite map_map. }
  eexists _, _. split.
  - unfold bind at 1. rewrite Hrun.
    apply (get_word_timestamps_canonical w1 vid _ Hc1 Hf1).
  - intros k t0 t1 Hin.
    apply fold_bind_values in Hin as [[] | (e & He & [= -> ->])].
    apply filter_In in He as [He _]. apply in_map_iff in He as (d0 & <- & Hd0).
    apply filter_In in Hd0 as [_ Hv]. apply valid_recordb_spec in Hv.
    exists (rec_num d0 "start_time"), (rec_num d0 "end_time").
    split; [reflexivity|]. split; [reflexivity|]. apply Hv.
Qed.

Lemma index_intervals_proper_witness :
  exists d w',
    (_process_WASL_structure ;;; _get_word_timestamps "v1") raw_world = (Ok d, w') /\
    forall k t0 t1,
      In (k, (t0, t1)) d ->
      exists a b, t0 = PNum a /\ t1 = PNum b /\ (a < b)%Q.
Proof.
  apply (index_intervals_proper raw_world raw_records "v1").
  - left. reflexivity.
  - eexists. reflexivity.
  - reflexivity.
  - reflexivity.
  - repeat constructor.
Defined.
